(** * openfeature-posthog-go: the PostHog provider for OpenFeature

    A shallow embedding of [provider.go] and of the parts of the Go
    distribution it calls ([strconv], [unicode/utf8], [fmt]'s [%q],
    [encoding/json]), followed by the properties of the five evaluation
    entry points.

    Conventions.
    - A Go [string] is a sequence of bytes: Rocq's [string].
    - Integers are [Z]; where Go computes on [uint64]/[int64] the wrap-around
      is written out with [wrap64] and [int64_of_uint64].
    - A [float64] is a [spec_float] at precision 53 and [emax] 1024.
    - A Go map is a [gmap]; a map that may be [nil] is an [option (gmap _ _)].
    - A function that can panic returns an [outcome]; a method that calls the
      backend runs in the state monad [M] over a [World]. *)

From Stdlib Require Import ZArith String Ascii List Bool Lia.
From Stdlib Require Import DecimalString DecimalPos DecimalN DecimalZ DecimalFacts.
From Stdlib Require Import Floats.SpecFloat.
From stdpp Require Import base option gmap strings.

Set Warnings "-register-all".
Local Open Scope string_scope.
Local Open Scope Z_scope.

(* ===================================================================== *)
(** * Bytes, runes and [unicode/utf8] *)
(* ===================================================================== *)

Definition byte_val (c : ascii) : Z := Z.of_N (N_of_ascii c).
Definition byte_chr (z : Z) : ascii := ascii_of_N (Z.to_N (z mod 256)).

Fixpoint bytes_of (s : string) : list Z :=
  match s with
  | EmptyString => []
  | String c r => byte_val c :: bytes_of r
  end.

Fixpoint string_of_bytes (l : list Z) : string :=
  match l with
  | [] => EmptyString
  | b :: r => String (byte_chr b) (string_of_bytes r)
  end.

Definition in_range (lo hi x : Z) : bool := (lo <=? x) && (x <=? hi).

(** [lower(c)] of strconv: [c | ('x' - 'X')]. *)
Definition lower (c : Z) : Z := Z.lor c 32.

Definition RuneError : Z := 65533.
Definition RuneSelf : Z := 128.
Definition MaxRune : Z := 1114111.

Definition is_cont (b : Z) : bool := in_range 128 191 b.

(** [utf8.DecodeRuneInString]: the first rune of [s] and its width in bytes;
    [(RuneError, 1)] on an invalid or truncated encoding, [(RuneError, 0)] on
    the empty string. *)
Definition DecodeRune (s : list Z) : Z * nat :=
  match s with
  | [] => (RuneError, 0%nat)
  | b0 :: r =>
    if b0 <? 128 then (b0, 1%nat)
    else if in_range 194 223 b0 then
      match r with
      | b1 :: _ =>
        if is_cont b1
        then (Z.lor (Z.shiftl (Z.land b0 31) 6) (Z.land b1 63), 2%nat)
        else (RuneError, 1%nat)
      | _ => (RuneError, 1%nat)
      end
    else if in_range 224 239 b0 then
      match r with
      | b1 :: b2 :: _ =>
        let lo := if b0 =? 224 then 160 else 128 in
        let hi := if b0 =? 237 then 159 else 191 in
        if in_range lo hi b1 && is_cont b2
        then (Z.lor (Z.shiftl (Z.land b0 15) 12)
                (Z.lor (Z.shiftl (Z.land b1 63) 6) (Z.land b2 63)), 3%nat)
        else (RuneError, 1%nat)
      | _ => (RuneError, 1%nat)
      end
    else if in_range 240 244 b0 then
      match r with
      | b1 :: b2 :: b3 :: _ =>
        let lo := if b0 =? 240 then 144 else 128 in
        let hi := if b0 =? 244 then 143 else 191 in
        if in_range lo hi b1 && is_cont b2 && is_cont b3
        then (Z.lor (Z.shiftl (Z.land b0 7) 18)
                (Z.lor (Z.shiftl (Z.land b1 63) 12)
                   (Z.lor (Z.shiftl (Z.land b2 63) 6) (Z.land b3 63))), 4%nat)
        else (RuneError, 1%nat)
      | _ => (RuneError, 1%nat)
      end
    else (RuneError, 1%nat)
  end.

(** [utf8.ValidRune]. *)
Definition ValidRune (r : Z) : bool :=
  in_range 0 55295 r || in_range 57344 MaxRune r.

(** [utf8.AppendRune]: the UTF-8 encoding of [r]; an invalid rune is encoded
    as [RuneError]. *)
Definition EncodeRune (r : Z) : list Z :=
  let r := if ValidRune r then r else RuneError in
  if r <? 128 then [r]
  else if r <? 2048 then
    [Z.lor 192 (Z.shiftr r 6); Z.lor 128 (Z.land r 63)]
  else if r <? 65536 then
    [Z.lor 224 (Z.shiftr r 12); Z.lor 128 (Z.land (Z.shiftr r 6) 63);
     Z.lor 128 (Z.land r 63)]
  else
    [Z.lor 240 (Z.shiftr r 18); Z.lor 128 (Z.land (Z.shiftr r 12) 63);
     Z.lor 128 (Z.land (Z.shiftr r 6) 63); Z.lor 128 (Z.land r 63)].

(* ===================================================================== *)
(** * [strconv] *)
(* ===================================================================== *)

Module strconv.

(** The two causes a [*NumError] wraps. *)
Inductive NumError := ErrSyntax | ErrRange.

(** ** ParseBool / FormatBool *)

Definition ParseBool (str : string) : bool * option NumError :=
  if String.eqb str "1" || String.eqb str "t" || String.eqb str "T"
     || String.eqb str "TRUE" || String.eqb str "true" || String.eqb str "True"
  then (true, None)
  else if String.eqb str "0" || String.eqb str "f" || String.eqb str "F"
          || String.eqb str "FALSE" || String.eqb str "false"
          || String.eqb str "False"
  then (false, None)
  else (false, Some ErrSyntax).

Definition FormatBool (b : bool) : string :=
  if b then "true" else "false".

(** ** ParseUint / ParseInt at bit size 64 *)

Definition maxUint64 : Z := 2 ^ 64 - 1.
Definition wrap64 (z : Z) : Z := z mod 2 ^ 64.
(** [int64(u)] for a [uint64] [u]. *)
Definition int64_of_uint64 (u : Z) : Z :=
  if u <? 2 ^ 63 then u else u - 2 ^ 64.
(** [-n] on [int64]. *)
Definition neg64 (n : Z) : Z := int64_of_uint64 (wrap64 (- n)).

(** The loop of [ParseUint] over the bytes of the number, for a base in
    [2..36] (no underscores: those are accepted for base 0 only). The
    accumulator [n] is the [uint64] read so far. *)
Fixpoint ParseUint_loop (base : Z) (s : list Z) (n : Z) : Z * option NumError :=
  match s with
  | [] => (n, None)
  | c :: rest =>
    let digit :=
      if in_range 48 57 c then Some (c - 48)
      else if in_range 97 122 (lower c) then Some (lower c - 97 + 10)
      else None in
    match digit with
    | None => (0, Some ErrSyntax)
    | Some d =>
      if base <=? d then (0, Some ErrSyntax)
      else if maxUint64 / base + 1 <=? n then (maxUint64, Some ErrRange)
      else
        let n := wrap64 (n * base) in
        let n1 := wrap64 (n + d) in
        if (n1 <? n) || (maxUint64 <? n1) then (maxUint64, Some ErrRange)
        else ParseUint_loop base rest n1
    end
  end.

Definition ParseUint (s : string) (base : Z) : Z * option NumError :=
  if String.eqb s "" then (0, Some ErrSyntax)
  else ParseUint_loop base (bytes_of s) 0.

Definition ParseInt (s0 : string) (base : Z) : Z * option NumError :=
  match s0 with
  | EmptyString => (0, Some ErrSyntax)
  | String c0 rest =>
    let '(neg, s) :=
      if byte_val c0 =? 43 then (false, rest)
      else if byte_val c0 =? 45 then (true, rest)
      else (false, s0) in
    match ParseUint s base with
    | (_, Some ErrSyntax) => (0, Some ErrSyntax)
    | (un, _) =>
      let cutoff := 2 ^ 63 in
      if negb neg && (cutoff <=? un) then (cutoff - 1, Some ErrRange)
      else if neg && (cutoff <? un) then (- cutoff, Some ErrRange)
      else
        let n := int64_of_uint64 un in
        (if neg then neg64 n else n, None)
    end
  end.

(** [FormatInt(i, 10)]: the decimal digits, with a leading [-] for a
    negative number. *)
Definition FormatInt (i : Z) : string :=
  NilZero.string_of_int (Z.to_int i).

(** ** ParseFloat at bit size 64 *)

Definition float64 : Type := spec_float.
Definition prec64 : Z := 53.
Definition emax64 : Z := 1024.

(** [commonPrefixLenIgnoreCase(s, prefix)], [prefix] in lower case. *)
Fixpoint commonPrefixLenIgnoreCase (s prefix : list Z) : nat :=
  match s, prefix with
  | c :: s', p :: prefix' =>
    let c := if in_range 65 90 c then c + 32 else c in
    if c =? p then S (commonPrefixLenIgnoreCase s' prefix') else O
  | _, _ => O
  end.

(** [special]: the infinities and NaN, with the number of bytes read. *)
Definition special (s : list Z) : option (float64 * nat) :=
  let inf (neg : bool) (nsign : nat) (s : list Z) :=
    let n := commonPrefixLenIgnoreCase s (bytes_of "infinity") in
    let n := if (3 <? n)%nat && (n <? 8)%nat then 3%nat else n in
    if (n =? 3)%nat || (n =? 8)%nat
    then Some (S754_infinity neg, (nsign + n)%nat) else None in
  match s with
  | [] => None
  | c :: rest =>
    if (c =? 43) || (c =? 45) then inf (c =? 45) 1%nat rest
    else if (c =? 105) || (c =? 73) then inf false 0%nat s
    else if (c =? 110) || (c =? 78) then
      if (commonPrefixLenIgnoreCase s (bytes_of "nan") =? 3)%nat
      then Some (S754_nan, 3%nat) else None
    else None
  end.

(** The state of the digit loop of [readFloat]. The mantissa is kept
    exactly: where Go stores the first 19 (16 in base 16) digits in a
    [uint64] and a [trunc] flag for the rest, and converts by an exact
    algorithm when that flag is set, [rf_mant] holds all [rf_nd] digits. *)
Record readFloat_state := {
  rf_nd : Z;
  rf_dp : Z;
  rf_mant : Z;
  rf_sawdot : bool;
  rf_sawdigits : bool;
  rf_underscores : bool
}.

Fixpoint readFloat_digits (base : Z) (s : list Z) (st : readFloat_state)
  : readFloat_state * list Z :=
  match s with
  | [] => (st, [])
  | c :: rest =>
    if c =? 95 then
      readFloat_digits base rest
        {| rf_nd := rf_nd st; rf_dp := rf_dp st; rf_mant := rf_mant st;
           rf_sawdot := rf_sawdot st; rf_sawdigits := rf_sawdigits st;
           rf_underscores := true |}
    else if c =? 46 then
      if rf_sawdot st then (st, s)
      else
        readFloat_digits base rest
          {| rf_nd := rf_nd st; rf_dp := rf_nd st; rf_mant := rf_mant st;
             rf_sawdot := true; rf_sawdigits := rf_sawdigits st;
             rf_underscores := rf_underscores st |}
    else if in_range 48 57 c then
      if (c =? 48) && (rf_nd st =? 0) then
        readFloat_digits base rest
          {| rf_nd := rf_nd st; rf_dp := rf_dp st - 1; rf_mant := rf_mant st;
             rf_sawdot := rf_sawdot st; rf_sawdigits := true;
             rf_underscores := rf_underscores st |}
      else
        readFloat_digits base rest
          {| rf_nd := rf_nd st + 1; rf_dp := rf_dp st;
             rf_mant := rf_mant st * base + (c - 48);
             rf_sawdot := rf_sawdot st; rf_sawdigits := true;
             rf_underscores := rf_underscores st |}
    else if (base =? 16) && in_range 97 102 (lower c) then
      readFloat_digits base rest
        {| rf_nd := rf_nd st + 1; rf_dp := rf_dp st;
           rf_mant := rf_mant st * 16 + (lower c - 97 + 10);
           rf_sawdot := rf_sawdot st; rf_sawdigits := true;
           rf_underscores := rf_underscores st |}
    else (st, s)
  end.

(** The digits of the exponent; once [e] has reached 10000 further digits
    are read but no longer added. *)
Fixpoint readFloat_exp (s : list Z) (e : Z) (underscores : bool)
  : Z * bool * list Z :=
  match s with
  | [] => (e, underscores, [])
  | c :: rest =>
    if in_range 48 57 c then
      readFloat_exp rest (if e <? 10000 then e * 10 + (c - 48) else e) underscores
    else if c =? 95 then readFloat_exp rest e true
    else (e, underscores, s)
  end.

(** [underscoreOK]: underscores only between digits, or between a base
    prefix and a digit. [saw] is 0 at the beginning, 1 after a digit or
    base prefix, 2 after an underscore, 3 after anything else. *)
Fixpoint underscoreOK_loop (hex : bool) (s : list Z) (saw : Z) : bool :=
  match s with
  | [] => negb (saw =? 2)
  | c :: rest =>
    if in_range 48 57 c || (hex && in_range 97 102 (lower c))
    then underscoreOK_loop hex rest 1
    else if c =? 95 then
      if negb (saw =? 1) then false else underscoreOK_loop hex rest 2
    else if saw =? 2 then false
    else underscoreOK_loop hex rest 3
  end.

Definition underscoreOK (s : list Z) : bool :=
  let s := match s with
           | c :: r => if (c =? 45) || (c =? 43) then r else s
           | [] => s
           end in
  match s with
  | c0 :: c1 :: r =>
    if (c0 =? 48) && ((lower c1 =? 98) || (lower c1 =? 111) || (lower c1 =? 120))
    then underscoreOK_loop (lower c1 =? 120) r 1
    else underscoreOK_loop false s 0
  | _ => underscoreOK_loop false s 0
  end.

Record readFloat_result := {
  rr_mantissa : Z;   (* all the digits read, as a number *)
  rr_exp : Z;        (* the value is mantissa * 10^exp, or * 2^exp in base 16 *)
  rr_neg : bool;
  rr_hex : bool;
  rr_rest : list Z   (* the bytes not read *)
}.

(** [readFloat]: sign, optional [0x], mantissa, optional exponent. [None]
    is Go's [ok == false]. *)
Definition readFloat (s : list Z) : option readFloat_result :=
  match s with
  | [] => None
  | c :: r =>
    let '(neg, s1) :=
      if c =? 43 then (false, r) else if c =? 45 then (true, r) else (false, s) in
    let '(hex, s2) :=
      match s1 with
      | c0 :: c1 :: (_ :: _) as r2 =>
        if (c0 =? 48) && (lower c1 =? 120) then (true, r2) else (false, s1)
      | _ => (false, s1)
      end in
    let base := if hex then 16 else 10 in
    let '(st, s3) :=
      readFloat_digits base s2
        {| rf_nd := 0; rf_dp := 0; rf_mant := 0; rf_sawdot := false;
           rf_sawdigits := false; rf_underscores := false |} in
    if negb (rf_sawdigits st) then None
    else
      let dp := if rf_sawdot st then rf_dp st else rf_nd st in
      let dp := if hex then dp * 4 else dp in
      let ndMant := if hex then rf_nd st * 4 else rf_nd st in
      let finish (dp : Z) (underscores : bool) (rest : list Z) :=
        let consumed := take (length s - length rest)%nat s in
        if underscores && negb (underscoreOK consumed) then None
        else Some {| rr_mantissa := rf_mant st;
                     rr_exp := if rf_mant st =? 0 then 0 else dp - ndMant;
                     rr_neg := neg; rr_hex := hex; rr_rest := rest |} in
      match s3 with
      | c :: s4 =>
        if lower c =? (if hex then 112 else 101) then
          match s4 with
          | [] => None
          | c' :: s5 =>
            let '(esign, s6) :=
              if c' =? 43 then (1, s5) else if c' =? 45 then (-1, s5) else (1, s4) in
            match s6 with
            | d :: _ =>
              if in_range 48 57 d then
                let '(e, us, rest) := readFloat_exp s6 0 (rf_underscores st) in
                finish (dp + e * esign) us rest
              else None
            | [] => None
            end
          end
        else if hex then None
        else finish dp (rf_underscores st) s3
      | [] => if hex then None else finish dp (rf_underscores st) s3
      end
  end.

(** The [float64] nearest to [mant * 10^exp] (or [mant * 2^exp] for a
    hexadecimal literal), ties to even; an infinity when the rounded value
    is out of range. *)
Definition round_float64 (neg hex : bool) (mant exp : Z) : float64 :=
  match mant with
  | Zpos m =>
    if hex then binary_normalize prec64 emax64 (if neg then Zneg m else Zpos m) exp neg
    else if 0 <=? exp then
      binary_normalize prec64 emax64
        ((if neg then Zneg m else Zpos m) * 10 ^ exp) 0 neg
    else
      SFdiv prec64 emax64 (S754_finite neg m 0)
        (S754_finite false (Z.to_pos (10 ^ (- exp))) 0)
  | _ => S754_zero neg
  end.

Definition is_infinity (f : float64) : bool :=
  match f with S754_infinity _ => true | _ => false end.

(** [ParseFloat(s, 64)]. *)
Definition ParseFloat (s : string) : float64 * option NumError :=
  let b := bytes_of s in
  match special b with
  | Some (f, n) =>
    if (n =? length b)%nat then (f, None) else (S754_zero false, Some ErrSyntax)
  | None =>
    match readFloat b with
    | None => (S754_zero false, Some ErrSyntax)
    | Some r =>
      match rr_rest r with
      | _ :: _ => (S754_zero false, Some ErrSyntax)
      | [] =>
        let f := round_float64 (rr_neg r) (rr_hex r) (rr_mantissa r) (rr_exp r) in
        if is_infinity f then (f, Some ErrRange) else (f, None)
      end
    end
  end.

(** ** IsPrint and Quote *)

Definition lowerhex (d : Z) : Z :=
  if d <? 10 then 48 + d else 97 + (d - 10).

Fixpoint hex_digits (n : nat) (r : Z) : list Z :=
  match n with
  | O => []
  | S k => lowerhex (Z.land (Z.shiftr r (4 * Z.of_nat k)) 15) :: hex_digits k r
  end.

Section Quote.
(** [IsPrint] decides runes up to U+00FF by comparison and the others by
    binary search in the tables [isPrint16], [isNotPrint16], [isPrint32]
    and [isNotPrint32] of the Go distribution. Those tables are taken as
    a parameter. *)
Variable isPrintTable : Z -> bool.

Definition IsPrint (r : Z) : bool :=
  if r <=? 255 then
    if in_range 32 126 r then true
    else if in_range 161 255 r then negb (r =? 173)
    else false
  else isPrintTable r.

(** [appendEscapedRune] for the double quote as the quote byte, with
    [ASCIIonly] and [graphicOnly] both false. *)
Definition appendEscapedRune (r : Z) : list Z :=
  if (r =? 34) || (r =? 92) then [92; r]
  else if IsPrint r then EncodeRune r
  else if r =? 7 then [92; 97]
  else if r =? 8 then [92; 98]
  else if r =? 12 then [92; 102]
  else if r =? 10 then [92; 110]
  else if r =? 13 then [92; 114]
  else if r =? 9 then [92; 116]
  else if r =? 11 then [92; 118]
  else if (r <? 32) || (r =? 127) then 92 :: 120 :: hex_digits 2 r
  else if negb (ValidRune r) then 92 :: 117 :: hex_digits 4 RuneError
  else if r <? 65536 then 92 :: 117 :: hex_digits 4 r
  else 92 :: 85 :: hex_digits 8 r.

(** The loop of [appendQuotedWith]; [fuel] bounds the number of runes by
    the number of bytes. *)
Fixpoint quote_loop (fuel : nat) (s : list Z) : list Z :=
  match fuel, s with
  | _, [] => []
  | O, _ => []
  | S fuel, b0 :: _ =>
    let '(r, width) := if b0 <? RuneSelf then (b0, 1%nat) else DecodeRune s in
    if (width =? 1)%nat && (r =? RuneError)
    then 92 :: 120 :: hex_digits 2 b0 ++ quote_loop fuel (drop width s)
    else appendEscapedRune r ++ quote_loop fuel (drop width s)
  end.

(** [strconv.Quote], which is what [fmt]'s [%q] prints for a string. *)
Definition Quote (s : string) : string :=
  let b := bytes_of s in
  string_of_bytes (34 :: quote_loop (length b) b ++ [34]).
End Quote.

End strconv.

(* ===================================================================== *)
(** * Go values of interface type *)
(* ===================================================================== *)

Definition float64 : Type := strconv.float64.

(** The struct [PostHogProperties] of provider.go, over the type [A] of the
    values of interface type: the properties of the groups, by group, and
    the properties of the person. *)
Record PostHogProperties_of (A : Type) := {
  GroupProperties : option (gmap string (option (gmap string A)));
  PersonProperties : option (gmap string A)
}.
Arguments GroupProperties {A} _.
Arguments PersonProperties {A} _.

(** A value of type [interface{}], by dynamic type. [ANil] is the nil
    interface. The three map types are distinct dynamic types although they
    share [map[string]interface{}] as underlying type; [None] is the nil map.
    [AOther] stands for a value of any other type, named by [ty]. *)
Inductive any : Type :=
| ANil
| ABool (b : bool)
| AString (s : string)
| AInt (n : Z)
| AInt64 (n : Z)
| AFloat64 (f : float64)
| ASlice (l : list any)
| AMap (m : option (gmap string any))
| AGroups (g : option (gmap string any))
| AProperties (p : option (gmap string any))
| APostHogProperties (p : PostHogProperties_of any)
| AOther (ty : string) (repr : string).

Definition PostHogProperties : Type := PostHogProperties_of any.

(** The zero value of [PostHogProperties]: two nil maps. *)
Definition zero_PostHogProperties : PostHogProperties :=
  {| GroupProperties := None; PersonProperties := None |}.

(* ===================================================================== *)
(** * [encoding/json]: Unmarshal into a [map[string]interface{}] *)
(* ===================================================================== *)

Module json.

(** A JSON text as the scanner accepts it. Strings are already unquoted;
    a number keeps its literal. *)
Inductive value : Type :=
| JNull
| JBool (b : bool)
| JNumber (lit : list Z)
| JString (s : list Z)
| JArray (elems : list value)
| JObject (members : list (list Z * value)).

Definition maxNestingDepth : Z := 10000.

Definition isSpace (c : Z) : bool :=
  (c =? 32) || (c =? 9) || (c =? 13) || (c =? 10).

Fixpoint skip_space (s : list Z) : list Z :=
  match s with
  | c :: r => if isSpace c then skip_space r else s
  | [] => []
  end.

Definition hex_val (c : Z) : option Z :=
  if in_range 48 57 c then Some (c - 48)
  else if in_range 97 102 c then Some (c - 97 + 10)
  else if in_range 65 70 c then Some (c - 65 + 10)
  else None.

(** [getu4]: the rune of a [\uXXXX] escape at the head of [s], or -1. *)
Definition getu4 (s : list Z) : Z :=
  match s with
  | b :: u :: h1 :: h2 :: h3 :: h4 :: _ =>
    if (b =? 92) && (u =? 117) then
      match hex_val h1, hex_val h2, hex_val h3, hex_val h4 with
      | Some a, Some b, Some c, Some d => ((a * 16 + b) * 16 + c) * 16 + d
      | _, _, _, _ => -1
      end
    else -1
  | _ => -1
  end.

Definition IsSurrogate (r : Z) : bool := (55296 <=? r) && (r <? 57344).

(** [utf16.DecodeRune]. *)
Definition utf16_DecodeRune (r1 r2 : Z) : Z :=
  if (55296 <=? r1) && (r1 <? 56320) && (56320 <=? r2) && (r2 <? 57344)
  then Z.lor (Z.shiftl (r1 - 55296) 10) (r2 - 56320) + 65536
  else RuneError.

(** The body of a string literal, after the opening quote: the unquoted
    bytes and what follows the closing quote. The scanner rejects control
    characters and unknown escapes; [unquote] replaces malformed UTF-8 and
    unpaired surrogates by U+FFFD. *)
Fixpoint scan_string (fuel : nat) (s : list Z) : option (list Z * list Z) :=
  match fuel with
  | O => None
  | S fuel =>
    match s with
    | [] => None
    | c :: r =>
      if c =? 34 then Some ([], r)
      else if c <? 32 then None
      else if c =? 92 then
        match r with
        | [] => None
        | e :: r' =>
          let simple (b : Z) :=
            match scan_string fuel r' with
            | Some (out, rest) => Some (b :: out, rest)
            | None => None
            end in
          if (e =? 34) || (e =? 92) || (e =? 47) then simple e
          else if e =? 98 then simple 8
          else if e =? 102 then simple 12
          else if e =? 110 then simple 10
          else if e =? 114 then simple 13
          else if e =? 116 then simple 9
          else if e =? 117 then
            let rr := getu4 s in
            if rr <? 0 then None
            else
              let after := drop 6 s in
              let '(rr, after) :=
                if IsSurrogate rr then
                  let dec := utf16_DecodeRune rr (getu4 after) in
                  if negb (dec =? RuneError) then (dec, drop 6 after)
                  else (RuneError, after)
                else (rr, after) in
              match scan_string fuel after with
              | Some (out, rest) => Some ((EncodeRune rr ++ out)%list, rest)
              | None => None
              end
          else None
        end
      else if c <? RuneSelf then
        match scan_string fuel r with
        | Some (out, rest) => Some (c :: out, rest)
        | None => None
        end
      else
        let '(rr, size) := DecodeRune s in
        match scan_string fuel (drop size s) with
        | Some (out, rest) => Some ((EncodeRune rr ++ out)%list, rest)
        | None => None
        end
    end
  end.

Fixpoint span_digits (s : list Z) : list Z * list Z :=
  match s with
  | c :: r =>
    if in_range 48 57 c
    then let '(ds, rest) := span_digits r in (c :: ds, rest)
    else ([], s)
  | [] => ([], [])
  end.

(** A number literal: an optional minus sign; a zero, or a digit from 1 to 9
    followed by digits; optionally a point and one or more digits;
    optionally [e] or [E], an optional sign and one or more digits. *)
Definition scan_number (s : list Z) : option (list Z * list Z) :=
  let '(sign, s1) :=
    match s with
    | c :: r => if c =? 45 then ([45], r) else ([], s)
    | [] => ([], s)
    end in
  match s1 with
  | [] => None
  | c :: r =>
    let int_part :=
      if c =? 48 then Some ([48], r)
      else if in_range 49 57 c then
        let '(ds, rest) := span_digits r in Some (c :: ds, rest)
      else None in
    match int_part with
    | None => None
    | Some (ip, s2) =>
      let frac_part :=
        match s2 with
        | c2 :: r2 =>
          if c2 =? 46 then
            match span_digits r2 with
            | ([], _) => None
            | (ds, rest) => Some (46 :: ds, rest)
            end
          else Some ([], s2)
        | [] => Some ([], s2)
        end in
      match frac_part with
      | None => None
      | Some (fp, s3) =>
        let exp_part :=
          match s3 with
          | e :: r3 =>
            if (e =? 101) || (e =? 69) then
              let '(sg, r4) :=
                match r3 with
                | g :: r4 => if (g =? 43) || (g =? 45) then ([g], r4) else ([], r3)
                | [] => ([], r3)
                end in
              match span_digits r4 with
              | ([], _) => None
              | (ds, rest) => Some ((e :: sg ++ ds)%list, rest)
              end
            else Some ([], s3)
          | [] => Some ([], s3)
          end in
        match exp_part with
        | None => None
        | Some (ep, s4) => Some ((sign ++ ip ++ fp ++ ep)%list, s4)
        end
      end
    end
  end.

Fixpoint expect (lit s : list Z) : option (list Z) :=
  match lit, s with
  | [], _ => Some s
  | l :: lit', c :: s' => if l =? c then expect lit' s' else None
  | _ :: _, [] => None
  end.

(** One JSON value at the head of [s] (no leading space), nested at most
    [maxNestingDepth] deep, and the rest of the input. Every call consumes
    input, so fuel in the order of the length of the input is never used
    up. *)
Fixpoint scan_value (fuel : nat) (depth : Z) (s : list Z)
  : option (value * list Z) :=
  match fuel with
  | O => None
  | S fuel =>
    match s with
    | [] => None
    | c :: r =>
      if c =? 123 then
        if maxNestingDepth <=? depth then None
        else
          match skip_space r with
          | [] => None
          | (c' :: rest) as s' =>
            if c' =? 125 then Some (JObject [], rest)
            else
              match scan_members fuel (depth + 1) s' with
              | Some (ms, rest) => Some (JObject ms, rest)
              | None => None
              end
          end
      else if c =? 91 then
        if maxNestingDepth <=? depth then None
        else
          match skip_space r with
          | [] => None
          | (c' :: rest) as s' =>
            if c' =? 93 then Some (JArray [], rest)
            else
              match scan_elements fuel (depth + 1) s' with
              | Some (es, rest) => Some (JArray es, rest)
              | None => None
              end
          end
      else if c =? 34 then
        match scan_string (length r) r with
        | Some (str, rest) => Some (JString str, rest)
        | None => None
        end
      else if c =? 116 then
        match expect (bytes_of "rue") r with
        | Some rest => Some (JBool true, rest)
        | None => None
        end
      else if c =? 102 then
        match expect (bytes_of "alse") r with
        | Some rest => Some (JBool false, rest)
        | None => None
        end
      else if c =? 110 then
        match expect (bytes_of "ull") r with
        | Some rest => Some (JNull, rest)
        | None => None
        end
      else
        match scan_number s with
        | Some (lit, rest) => Some (JNumber lit, rest)
        | None => None
        end
    end
  end

(** The elements of an array after its opening bracket, up to and
    including the closing bracket. *)
with scan_elements (fuel : nat) (depth : Z) (s : list Z)
  : option (list value * list Z) :=
  match fuel with
  | O => None
  | S fuel =>
    match scan_value fuel depth s with
    | None => None
    | Some (v, rest) =>
      match skip_space rest with
      | [] => None
      | c :: rest' =>
        if c =? 44 then
          match scan_elements fuel depth (skip_space rest') with
          | Some (vs, rest'') => Some (v :: vs, rest'')
          | None => None
          end
        else if c =? 93 then Some ([v], rest')
        else None
      end
    end
  end

(** The members of an object after its opening brace, up to and including
    the closing brace. *)
with scan_members (fuel : nat) (depth : Z) (s : list Z)
  : option (list (list Z * value) * list Z) :=
  match fuel with
  | O => None
  | S fuel =>
    match s with
    | [] => None
    | q :: r =>
      if negb (q =? 34) then None
      else
        match scan_string (length r) r with
        | None => None
        | Some (key, rest) =>
          match skip_space rest with
          | [] => None
          | c1 :: rest1 =>
            if negb (c1 =? 58) then None
            else
              match scan_value fuel depth (skip_space rest1) with
              | None => None
              | Some (v, rest2) =>
                match skip_space rest2 with
                | [] => None
                | c2 :: rest3 =>
                  if c2 =? 44 then
                    match scan_members fuel depth (skip_space rest3) with
                    | Some (ms, rest4) => Some ((key, v) :: ms, rest4)
                    | None => None
                    end
                  else if c2 =? 125 then Some ([(key, v)], rest3)
                  else None
                end
              end
          end
        end
    end
  end.

(** [checkValid]: the whole input is one JSON value between optional
    white space. *)
Definition parse_with (fuel : nat) (data : string) : option value :=
  match scan_value fuel 0 (skip_space (bytes_of data)) with
  | Some (v, rest) =>
    match skip_space rest with
    | [] => Some v
    | _ :: _ => None
    end
  | None => None
  end.

(** Twice the length of the input is fuel enough ([parse_with_enough]). *)
Definition parse (data : string) : option value :=
  parse_with (2 * length (bytes_of data) + 1) data.

Inductive Error :=
| SyntaxError
| UnmarshalTypeError (Value : string).

Definition first_error (e1 e2 : option Error) : option Error :=
  match e1 with Some _ => e1 | None => e2 end.

(** [valueInterface]: a JSON value as an [interface{}]. A number becomes a
    [float64] through [strconv.ParseFloat]; when that fails the value is
    nil and the error is saved ([convertNumber]). Later members of an
    object overwrite earlier ones with the same key. *)
Fixpoint valueInterface (v : value) : any * option Error :=
  match v with
  | JNull => (ANil, None)
  | JBool b => (ABool b, None)
  | JNumber lit =>
    let s := string_of_bytes lit in
    match strconv.ParseFloat s with
    | (f, None) => (AFloat64 f, None)
    | (_, Some _) => (ANil, Some (UnmarshalTypeError ("number " +:+ s)))
    end
  | JString s => (AString (string_of_bytes s), None)
  | JArray elems =>
    let fix go (l : list value) : list any * option Error :=
      match l with
      | [] => ([], None)
      | x :: l' =>
        let '(a, e1) := valueInterface x in
        let '(r, e2) := go l' in
        (a :: r, first_error e1 e2)
      end in
    let '(l, e) := go elems in (ASlice l, e)
  | JObject members =>
    let fix go (l : list (list Z * value)) (m : gmap string any)
      : gmap string any * option Error :=
      match l with
      | [] => (m, None)
      | (k, x) :: l' =>
        let '(a, e1) := valueInterface x in
        let '(m', e2) := go l' (<[string_of_bytes k := a]> m) in
        (m', first_error e1 e2)
      end in
    let '(m, e) := go members ∅ in (AMap (Some m), e)
  end.

(** [json.Unmarshal(data, &obj)] for [obj] a nil [map[string]interface{}]:
    the map afterwards and the error. Only [null] and an object can be
    stored in a map. *)
Definition Unmarshal (data : string) : option (gmap string any) * option Error :=
  match parse data with
  | None => (None, Some SyntaxError)
  | Some JNull => (None, None)
  | Some (JObject members) =>
    match valueInterface (JObject members) with
    | (AMap m, e) => (m, e)
    | (_, e) => (None, e)
    end
  | Some (JArray _) => (None, Some (UnmarshalTypeError "array"))
  | Some (JBool _) => (None, Some (UnmarshalTypeError "bool"))
  | Some (JNumber _) => (None, Some (UnmarshalTypeError "number"))
  | Some (JString _) => (None, Some (UnmarshalTypeError "string"))
  end.

End json.

(* ===================================================================== *)
(** * The OpenFeature vocabulary used by the provider *)
(* ===================================================================== *)

Module openfeature.

Inductive ErrorCode :=
| ProviderNotReadyCode
| FlagNotFoundCode
| ParseErrorCode
| TypeMismatchCode
| TargetingKeyMissingCode
| InvalidContextCode
| GeneralCode.

Inductive Reason :=
| DefaultReason
| TargetingMatchReason
| SplitReason
| DisabledReason
| StaticReason
| CachedReason
| UnknownReason
| ErrorReason.

(** [ResolutionError]; the zero value, with no code, means no error. *)
Record ResolutionError := {
  code : option ErrorCode;
  message : string
}.

Definition NoResolutionError : ResolutionError :=
  {| code := None; message := "" |}.
Definition NewFlagNotFoundResolutionError (msg : string) : ResolutionError :=
  {| code := Some FlagNotFoundCode; message := msg |}.
Definition NewTypeMismatchResolutionError (msg : string) : ResolutionError :=
  {| code := Some TypeMismatchCode; message := msg |}.
Definition NewTargetingKeyMissingResolutionError (msg : string) : ResolutionError :=
  {| code := Some TargetingKeyMissingCode; message := msg |}.
Definition NewGeneralResolutionError (msg : string) : ResolutionError :=
  {| code := Some GeneralCode; message := msg |}.

Record ProviderResolutionDetail := {
  ResolutionError_ : ResolutionError;
  Reason_ : Reason
}.

(** [BoolResolutionDetail], [FloatResolutionDetail], [IntResolutionDetail],
    [StringResolutionDetail] and [InterfaceResolutionDetail] differ in the
    type of [Value] only. *)
Record ResolutionDetail (V : Type) := {
  Value : V;
  Detail : ProviderResolutionDetail
}.
Arguments Value {V} _.
Arguments Detail {V} _.

(** The key of the targeting key in a flattened context. *)
Definition TargetingKey : string := "targetingKey".

End openfeature.

(* ===================================================================== *)
(** * The PostHog client as the provider sees it *)
(* ===================================================================== *)

Module posthog.

(** The fields of [FeatureFlagPayload] that provider.go sets; [Groups] and
    [Properties] are maps from string to [interface{}]. *)
Record FeatureFlagPayload := {
  Key : string;
  DistinctId : string;
  Groups : option (gmap string any);
  PersonProperties : option (gmap string any);
  GroupProperties : option (gmap string (option (gmap string any)))
}.

Definition zero_FeatureFlagPayload : FeatureFlagPayload :=
  {| Key := ""; DistinctId := ""; Groups := None;
     PersonProperties := None; GroupProperties := None |}.

End posthog.

(* ===================================================================== *)
(** * Errors, panics and the backend *)
(* ===================================================================== *)

(** The [error] values the provider handles: its three package-level errors,
    compared by identity, and whatever the client returns, known by the text
    of its [Error()] method. *)
Inductive error :=
| errMissingTargetKey
| errInvalidGroups
| errInvalidProperties
| ClientError (text : string).

Definition Error (e : error) : string :=
  match e with
  | errMissingTargetKey => "missing target key in evaluation context"
  | errInvalidGroups => "invalid groups in evaluation context"
  | errInvalidProperties => "invalid properties in evaluation context"
  | ClientError text => text
  end.

(** [errors.Is(err, target)] for a package-level [target]. *)
Definition errors_Is (err target : error) : bool :=
  match err, target with
  | errMissingTargetKey, errMissingTargetKey => true
  | errInvalidGroups, errInvalidGroups => true
  | errInvalidProperties, errInvalidProperties => true
  | _, _ => false
  end.

(** A run-time panic: a type assertion [v.(T)] without the comma-ok form on
    a value of another dynamic type. *)
Inductive panic :=
| TypeAssertionError (v : any) (asserted : string).

Inductive outcome (A : Type) :=
| Returned (a : A)
| Panicked (p : panic).
Arguments Returned {A} a.
Arguments Panicked {A} p.

(** The backend behind [posthog.Client]: [GetFeatureFlag] answers a payload
    with a value and an error, and may change the state [S] of the client. *)
Record Client (S : Type) := {
  GetFeatureFlag : posthog.FeatureFlagPayload -> S -> (any * option error) * S
}.
Arguments GetFeatureFlag {S} _ _ _.

(** The state an evaluation runs in: the state of the client, and the
    payloads [GetFeatureFlag] was called with so far, oldest first. *)
Record World (S : Type) := {
  backend : S;
  calls : list posthog.FeatureFlagPayload
}.
Arguments backend {S} _.
Arguments calls {S} _.

Definition M (S A : Type) : Type := World S -> outcome A * World S.

(** [M S] is a monad, with stdpp's notations for it. *)
#[global] Instance M_ret {S} : MRet (M S) :=
  fun A (a : A) w => (Returned a, w).

#[global] Instance M_bind {S} : MBind (M S) :=
  fun A B (k : A -> M S B) (m : M S A) w =>
    match m w with
    | (Returned a, w') => k a w'
    | (Panicked p, w') => (Panicked p, w')
    end.

Definition lift {S A} (o : outcome A) : M S A := fun w => (o, w).

(** One call of [client.GetFeatureFlag(payload)]. *)
Definition call_GetFeatureFlag {S} (c : Client S) (payload : posthog.FeatureFlagPayload)
  : M S (any * option error) :=
  fun w =>
    let '(r, s') := GetFeatureFlag c payload (backend w) in
    (Returned r, {| backend := s'; calls := (calls w ++ [payload])%list |}).

(* ===================================================================== *)
(** * provider.go *)
(* ===================================================================== *)

Import openfeature.

(** All supported keys in the evaluation context. *)
Definition DistinctIDContextKey : string := openfeature.TargetingKey.
Definition GroupsContextKey : string := "groups".
Definition PropertiesContextKey : string := "properties".

Record Provider (S : Type) := {
  client : Client S
}.
Arguments client {S} _.

Definition NewProvider {S} (c : Client S) : Provider S := {| client := c |}.

(** The type parameter of [parseFlagValue]: the four types the provider
    instantiates it with, and any other type by its name. *)
Inductive type_param :=
| T_bool
| T_float64
| T_int64
| T_string
| T_other (name : string).

Definition go_type (T : type_param) : Type :=
  match T with
  | T_bool => bool
  | T_float64 => float64
  | T_int64 => Z
  | T_string => string
  | T_other _ => unit
  end.

(** [*new(T)]. *)
Definition zero_value (T : type_param) : go_type T :=
  match T with
  | T_bool => false
  | T_float64 => S754_zero false
  | T_int64 => 0
  | T_string => ""
  | T_other _ => tt
  end.

(** [translateFeatureFlagPayload]. The assertion [distinctID.(string)] in the
    payload literal is unchecked: it panics on a targeting key that is not a
    string. *)
Definition translateFeatureFlagPayload (evalCtx : gmap string any) (key : string)
  : outcome (posthog.FeatureFlagPayload * option error) :=
  match evalCtx !! DistinctIDContextKey with
  | None => Returned (posthog.zero_FeatureFlagPayload, Some errMissingTargetKey)
  | Some distinctID =>
    let postHogGroups :=
      match evalCtx !! GroupsContextKey with
      | None => Some None
      | Some (AGroups g) => Some g
      | Some _ => None
      end in
    match postHogGroups with
    | None => Returned (posthog.zero_FeatureFlagPayload, Some errInvalidGroups)
    | Some postHogGroups =>
      let postHogCtx :=
        match evalCtx !! PropertiesContextKey with
        | None => Some zero_PostHogProperties
        | Some (APostHogProperties p) => Some p
        | Some _ => None
        end in
      match postHogCtx with
      | None => Returned (posthog.zero_FeatureFlagPayload, Some errInvalidProperties)
      | Some postHogCtx =>
        match distinctID with
        | AString id =>
          Returned ({| posthog.Key := key;
                       posthog.DistinctId := id;
                       posthog.Groups := postHogGroups;
                       posthog.PersonProperties := PersonProperties postHogCtx;
                       posthog.GroupProperties := GroupProperties postHogCtx |},
                    None)
        | v => Panicked (TypeAssertionError v "string")
        end
      end
    end
  end.

(** What the provider uses of the Go distribution beyond the functions
    modelled above: the Unicode tables behind [strconv.IsPrint], and the
    text [fmt] prints for a value under the verb [%v]. *)
Class GoLibrary := {
  isPrintTable : Z -> bool;
  Sprint : any -> string
}.

Section Provider.
Context `{GoLibrary}.
Context {S : Type}.

(** [fmt.Sprintf] with the verb [%q] on a string. *)
Definition Sprintf_q (s : string) : string := strconv.Quote isPrintTable s.

(** [getFeatureFlag]: the reply, whether the flag was found, the error. *)
Definition getFeatureFlag (p : Provider S) (payload : posthog.FeatureFlagPayload)
  : M S (any * bool * option error) :=
  '(res, err) ← call_GetFeatureFlag (client p) payload;
  match err with
  | Some err => mret (res, false, Some err)
  | None =>
    (* In case the flag could not be found, the client will return false
       for the flag value. This is the only time where it will return a
       boolean value instead of a string value. *)
    match res with
    | ABool res => mret (ABool res, false, None)
    | _ => mret (res, true, None)
    end
  end.

(** [parseFlagValue[T]]. *)
Definition parseFlagValue (T : type_param) (v : any)
  : go_type T * option ResolutionError :=
  (* The API response is always a string. *)
  match v with
  | AString s =>
    match T return go_type T * option ResolutionError with
    | T_bool =>
      match strconv.ParseBool s with
      | (_, Some _) =>
        (zero_value T_bool,
         Some (NewTypeMismatchResolutionError (Sprintf_q s +:+ " is not a boolean")))
      | (b, None) => (b, None)
      end
    | T_float64 =>
      match strconv.ParseFloat s with
      | (_, Some _) =>
        (zero_value T_float64,
         Some (NewTypeMismatchResolutionError (Sprintf_q s +:+ " is not a float")))
      | (f, None) => (f, None)
      end
    | T_int64 =>
      match strconv.ParseInt s 10 with
      | (_, Some _) =>
        (zero_value T_int64,
         Some (NewTypeMismatchResolutionError (Sprintf_q s +:+ " is not a int")))
      | (i, None) => (i, None)
      end
    | T_string => (s, None)
    | T_other name =>
      (zero_value (T_other name),
       Some (NewTypeMismatchResolutionError ("unsupported type " +:+ name)))
    end
  | _ =>
    (zero_value T,
     Some (NewTypeMismatchResolutionError (Sprint v +:+ " is not a string")))
  end.

Definition failed {V} (defaultValue : V) (e : ResolutionError) (r : Reason)
  : ResolutionDetail V :=
  {| Value := defaultValue;
     Detail := {| ResolutionError_ := e; Reason_ := r |} |}.

Definition resolved {V} (v : V) (r : Reason) : ResolutionDetail V :=
  {| Value := v;
     Detail := {| ResolutionError_ := NoResolutionError; Reason_ := r |} |}.

Definition BooleanEvaluation (p : Provider S) (flag : string) (defaultValue : bool)
    (evalCtx : gmap string any) : M S (ResolutionDetail bool) :=
  '(payload, err) ← lift (translateFeatureFlagPayload evalCtx flag);
  match err with
  | Some err =>
    if errors_Is err errMissingTargetKey
    then mret (failed defaultValue
                (NewTargetingKeyMissingResolutionError (Error err)) ErrorReason)
    else mret (failed defaultValue (NewGeneralResolutionError (Error err)) ErrorReason)
  | None =>
    '(res, found, err) ← getFeatureFlag p payload;
    match err with
    | Some err =>
      mret (failed defaultValue (NewGeneralResolutionError (Error err)) ErrorReason)
    | None =>
      if negb found then
        mret (failed defaultValue
               (NewFlagNotFoundResolutionError (Sprintf_q flag +:+ " not found"))
               DefaultReason)
      else
        match parseFlagValue T_bool res with
        | (_, Some resolutionErr) => mret (failed defaultValue resolutionErr ErrorReason)
        | (parsedValue, None) => mret (resolved parsedValue TargetingMatchReason)
        end
    end
  end.

Definition FloatEvaluation (p : Provider S) (flag : string) (defaultValue : float64)
    (evalCtx : gmap string any) : M S (ResolutionDetail float64) :=
  '(payload, err) ← lift (translateFeatureFlagPayload evalCtx flag);
  match err with
  | Some err =>
    mret (failed defaultValue (NewGeneralResolutionError (Error err)) ErrorReason)
  | None =>
    '(res, found, err) ← getFeatureFlag p payload;
    match err with
    | Some err =>
      mret (failed defaultValue (NewGeneralResolutionError (Error err)) ErrorReason)
    | None =>
      if negb found then
        mret (failed defaultValue
               (NewFlagNotFoundResolutionError (Sprintf_q flag +:+ " not found"))
               DefaultReason)
      else
        match parseFlagValue T_float64 res with
        | (_, Some resolutionErr) => mret (failed defaultValue resolutionErr ErrorReason)
        | (parsedValue, None) => mret (resolved parsedValue TargetingMatchReason)
        end
    end
  end.

Definition IntEvaluation (p : Provider S) (flag : string) (defaultValue : Z)
    (evalCtx : gmap string any) : M S (ResolutionDetail Z) :=
  '(payload, err) ← lift (translateFeatureFlagPayload evalCtx flag);
  match err with
  | Some err =>
    mret (failed defaultValue (NewGeneralResolutionError (Error err)) ErrorReason)
  | None =>
    '(res, found, err) ← getFeatureFlag p payload;
    match err with
    | Some err =>
      mret (failed defaultValue (NewGeneralResolutionError (Error err)) ErrorReason)
    | None =>
      if negb found then
        mret (failed defaultValue
               (NewFlagNotFoundResolutionError (Sprintf_q flag +:+ " not found"))
               DefaultReason)
      else
        match parseFlagValue T_int64 res with
        | (_, Some resolutionErr) => mret (failed defaultValue resolutionErr ErrorReason)
        | (parsedValue, None) => mret (resolved parsedValue TargetingMatchReason)
        end
    end
  end.

(** In [ObjectEvaluation] the reply is asserted to be a string without a
    check ([res.(string)]) and decoded by [json.Unmarshal]. *)
Definition ObjectEvaluation (p : Provider S) (flag : string) (defaultValue : any)
    (evalCtx : gmap string any) : M S (ResolutionDetail any) :=
  '(payload, err) ← lift (translateFeatureFlagPayload evalCtx flag);
  match err with
  | Some err =>
    mret (failed defaultValue (NewGeneralResolutionError (Error err)) ErrorReason)
  | None =>
    '(res, found, err) ← getFeatureFlag p payload;
    match err with
    | Some err =>
      mret (failed defaultValue (NewGeneralResolutionError (Error err)) ErrorReason)
    | None =>
      if negb found then
        mret (failed defaultValue
               (NewFlagNotFoundResolutionError (Sprintf_q flag +:+ " not found"))
               DefaultReason)
      else
        match res with
        | AString s =>
          match json.Unmarshal s with
          | (_, Some _) =>
            mret (failed defaultValue
                   (NewTypeMismatchResolutionError "invalid JSON as flag value")
                   ErrorReason)
          | (obj, None) => mret (resolved (AMap obj) TargetingMatchReason)
          end
        | v => lift (Panicked (TypeAssertionError v "string"))
        end
    end
  end.

Definition StringEvaluation (p : Provider S) (flag : string) (defaultValue : string)
    (evalCtx : gmap string any) : M S (ResolutionDetail string) :=
  '(payload, err) ← lift (translateFeatureFlagPayload evalCtx flag);
  match err with
  | Some err =>
    mret (failed defaultValue (NewGeneralResolutionError (Error err)) ErrorReason)
  | None =>
    '(res, found, err) ← getFeatureFlag p payload;
    match err with
    | Some err =>
      mret (failed defaultValue (NewGeneralResolutionError (Error err)) ErrorReason)
    | None =>
      if negb found then
        mret (failed defaultValue
               (NewFlagNotFoundResolutionError (Sprintf_q flag +:+ " not found"))
               DefaultReason)
      else
        match parseFlagValue T_string res with
        | (_, Some resolutionErr) => mret (failed defaultValue resolutionErr ErrorReason)
        | (parsedValue, None) => mret (resolved parsedValue TargetingMatchReason)
        end
    end
  end.

End Provider.

(* ===================================================================== *)
(** * Vocabulary of the statements *)
(* ===================================================================== *)

(** The double quote, as a string. *)
Definition dquote : string := String "034"%char EmptyString.

(** A string of printable ASCII characters other than the double quote and
    the backslash: the bytes [Quote] copies unchanged. *)
Definition plain_byte (c : Z) : bool :=
  in_range 32 126 c && negb (c =? 34) && negb (c =? 92).

Definition plain (s : string) : bool := forallb plain_byte (bytes_of s).

(** The number a sequence of decimal digits denotes, read from the left
    with [acc] as the number read so far. *)
Fixpoint uint_val (d : Decimal.uint) (acc : Z) : Z :=
  match d with
  | Decimal.Nil => acc
  | Decimal.D0 d => uint_val d (acc * 10)
  | Decimal.D1 d => uint_val d (acc * 10 + 1)
  | Decimal.D2 d => uint_val d (acc * 10 + 2)
  | Decimal.D3 d => uint_val d (acc * 10 + 3)
  | Decimal.D4 d => uint_val d (acc * 10 + 4)
  | Decimal.D5 d => uint_val d (acc * 10 + 5)
  | Decimal.D6 d => uint_val d (acc * 10 + 6)
  | Decimal.D7 d => uint_val d (acc * 10 + 7)
  | Decimal.D8 d => uint_val d (acc * 10 + 8)
  | Decimal.D9 d => uint_val d (acc * 10 + 9)
  end.

(** The result of an entry point, field by field. *)
Definition detail {V} (v : V) (c : option ErrorCode) (msg : string) (r : Reason)
  : ResolutionDetail V :=
  {| Value := v;
     Detail := {| ResolutionError_ := {| code := c; message := msg |};
                  Reason_ := r |} |}.

(** The world after one more call of [GetFeatureFlag], with [payload], that
    left the client in state [s]. *)
Definition after_call {S} (w : World S) (payload : posthog.FeatureFlagPayload) (s : S)
  : World S :=
  {| backend := s; calls := (calls w ++ [payload])%list |}.

(** The value under [GroupsContextKey] is absent or a [posthog.Groups]. *)
Definition groups_well_typed (evalCtx : gmap string any) : bool :=
  match evalCtx !! GroupsContextKey with
  | None | Some (AGroups _) => true
  | Some _ => false
  end.

(** The value under [PropertiesContextKey] is absent or a
    [PostHogProperties]. *)
Definition properties_well_typed (evalCtx : gmap string any) : bool :=
  match evalCtx !! PropertiesContextKey with
  | None | Some (APostHogProperties _) => true
  | Some _ => false
  end.

(** The payload [translateFeatureFlagPayload] builds for the targeting key
    [id] from a context whose groups and properties are well typed. *)
Definition mapped_payload (evalCtx : gmap string any) (key id : string)
  : posthog.FeatureFlagPayload :=
  {| posthog.Key := key;
     posthog.DistinctId := id;
     posthog.Groups :=
       match evalCtx !! GroupsContextKey with
       | Some (AGroups g) => g
       | _ => None
       end;
     posthog.PersonProperties :=
       match evalCtx !! PropertiesContextKey with
       | Some (APostHogProperties p) => PersonProperties p
       | _ => None
       end;
     posthog.GroupProperties :=
       match evalCtx !! PropertiesContextKey with
       | Some (APostHogProperties p) => GroupProperties p
       | _ => None
       end |}.

Definition is_string (v : any) : bool :=
  match v with AString _ => true | _ => false end.

Definition is_bool (v : any) : bool :=
  match v with ABool _ => true | _ => false end.

Definition is_object (j : json.value) : bool :=
  match j with json.JObject _ => true | _ => false end.

Definition is_null (j : json.value) : bool :=
  match j with json.JNull => true | _ => false end.

(** The range of [int64]. *)
Definition int64_range (n : Z) : Prop := - 2 ^ 63 <= n < 2 ^ 63.

(* ===================================================================== *)
(** * Sample inputs *)
(* ===================================================================== *)

(** [%v] for the values whose text needs neither float formatting nor the
    traversal of a map; a question mark stands for the text of the others. *)
Definition sample_Sprint (v : any) : string :=
  match v with
  | ANil => "<nil>"
  | ABool b => strconv.FormatBool b
  | AString s => s
  | AInt n | AInt64 n => strconv.FormatInt n
  | AOther _ repr => repr
  | _ => "?"
  end.

(** A library for running the examples, all of them in ASCII: of the runes
    above U+00FF its table knows Latin Extended-A only. *)
Definition sample_library : GoLibrary :=
  {| isPrintTable := in_range 256 383; Sprint := sample_Sprint |}.

(** A backend that keeps its flags in a table and counts its calls: it
    answers with the value of the flag, or with [false] when it has none. *)
Definition table_client (flags : gmap string any) : Client nat :=
  {| GetFeatureFlag := fun payload n =>
       ((default (ABool false) (flags !! posthog.Key payload), None), Datatypes.S n) |}.

(** A backend that cannot be reached. *)
Definition failing_client (text : string) : Client nat :=
  {| GetFeatureFlag := fun _ n => ((ANil, Some (ClientError text)), Datatypes.S n) |}.

Definition fresh_world : World nat := {| backend := O; calls := [] |}.

Definition sample_context : gmap string any :=
  {[ DistinctIDContextKey := AString "12345" ]}.

Definition sample_payload (flag : string) : posthog.FeatureFlagPayload :=
  {| posthog.Key := flag; posthog.DistinctId := "12345"; posthog.Groups := None;
     posthog.PersonProperties := None; posthog.GroupProperties := None |}.

(** The flag value of the object test of provider_test.go, and the map it
    decodes to; 52.5 is 105 / 2. *)
Definition jane_doe_json : string :=
  "{" +:+ dquote +:+ "name" +:+ dquote +:+ ": " +:+ dquote +:+ "jane doe" +:+ dquote
  +:+ ", " +:+ dquote +:+ "age" +:+ dquote +:+ ": 52.5}".

Definition float64_52_5 : float64 :=
  binary_normalize strconv.prec64 strconv.emax64 105 (-1) false.

Definition jane_doe_map : gmap string any :=
  <["age" := AFloat64 float64_52_5]> (<["name" := AString "jane doe"]> ∅).

(** A context with groups and properties in the shapes of the backend. *)
Definition acme_groups : gmap string any := {[ "company" := AString "acme" ]}.

Definition pro_properties : PostHogProperties :=
  {| GroupProperties := Some {[ "company" := Some {[ "seats" := AInt 25 ]} ]};
     PersonProperties := Some {[ "plan" := AString "pro" ]} |}.

Definition full_context : gmap string any :=
  <[PropertiesContextKey := APostHogProperties pro_properties]>
    (<[GroupsContextKey := AGroups (Some acme_groups)]> sample_context).

(** A flag value with a double quote inside: [a], a double quote, [b]. *)
Definition quote_inside : string := "a" +:+ dquote +:+ "b".

(** The backslash, as a string. *)
Definition backslash : string := String "092"%char EmptyString.

(** A context whose targeting key is the number 5. *)
Definition numeric_key_context : gmap string any :=
  {[ DistinctIDContextKey := AInt 5 ]}.

(** A context whose groups are a plain map, not a [posthog.Groups]. *)
Definition plain_map_groups_context : gmap string any :=
  <[GroupsContextKey := AMap (Some ∅)]> sample_context.

(* ===================================================================== *)
(** * Vocabulary of the further properties *)
(* ===================================================================== *)

(** A key of the evaluation context that the provider does not read. *)
Definition unread_key (k : string) : Prop :=
  k <> DistinctIDContextKey /\ k <> GroupsContextKey /\ k <> PropertiesContextKey.

(** A client whose reply depends on the payload only and whose state no call
    changes. *)
Definition stateless {S} (c : Client S) : Prop :=
  forall payload s1 s2,
    fst (GetFeatureFlag c payload s1) = fst (GetFeatureFlag c payload s2)
    /\ snd (GetFeatureFlag c payload s1) = s1.

(** The outcome of [m] is the same in every world. *)
Definition world_independent {S A} (m : M S A) : Prop :=
  forall w1 w2, fst (m w1) = fst (m w2).

(** [m] leaves the state of the backend as it found it. *)
Definition keeps_backend {S A} (m : M S A) : Prop :=
  forall w, backend (snd (m w)) = backend w.

(** A stateless backend that keeps its flags in a table. *)
Definition constant_client (flags : gmap string any) : Client nat :=
  {| GetFeatureFlag := fun payload n =>
       ((default (ABool false) (flags !! posthog.Key payload), None), n) |}.

(** The shape of what an entry point returns for the default [d]: no error
    goes with the reason [TargetingMatch] and an empty message; a
    [FlagNotFound] error with the default and the reason [Default]; a
    [TypeMismatch], [General] or, where [tkm] allows it,
    [TargetingKeyMissing] error with the default and the reason [Error];
    there is no other error code. *)
Definition well_formed_result {V} (tkm : bool) (d : V) (r : ResolutionDetail V)
  : Prop :=
  match code (ResolutionError_ (Detail r)) with
  | None =>
    Reason_ (Detail r) = TargetingMatchReason
    /\ message (ResolutionError_ (Detail r)) = ""
  | Some FlagNotFoundCode =>
    Value r = d /\ Reason_ (Detail r) = DefaultReason
  | Some TypeMismatchCode | Some GeneralCode =>
    Value r = d /\ Reason_ (Detail r) = ErrorReason
  | Some TargetingKeyMissingCode =>
    tkm = true /\ Value r = d /\ Reason_ (Detail r) = ErrorReason
  | Some _ => False
  end.

Definition well_formed_outcome {V} (tkm : bool) (d : V)
    (o : outcome (ResolutionDetail V)) : Prop :=
  match o with
  | Returned r => well_formed_result tkm d r
  | Panicked _ => True
  end.

Definition panicked {A} (o : outcome A) : bool :=
  match o with Panicked _ => true | Returned _ => false end.

(** Two outcomes of one entry point, for the defaults [d] and [d']: the same
    panic, or results with the same error and reason whose values are the
    two defaults on an error and one and the same value otherwise. *)
Definition same_up_to_default {V} (d d' : V)
    (o o' : outcome (ResolutionDetail V)) : Prop :=
  match o, o' with
  | Returned r, Returned r' =>
    Detail r = Detail r'
    /\ match code (ResolutionError_ (Detail r)) with
       | None => Value r = Value r'
       | Some _ => Value r = d /\ Value r' = d'
       end
  | Panicked p, Panicked p' => p = p'
  | _, _ => False
  end.

(** The error, the reason and whether there is a value, without the value:
    what two entry points of different types can have in common. *)
Definition verdict {V} (o : outcome (ResolutionDetail V))
  : outcome ProviderResolutionDetail :=
  match o with
  | Returned r => Returned (Detail r)
  | Panicked p => Panicked p
  end.

(** The failure happened before value coercion: in context mapping or in
    the lookup. *)
Definition failed_before_coercion (o : outcome ProviderResolutionDetail) : bool :=
  match o with
  | Returned r =>
    match code (ResolutionError_ r) with
    | Some GeneralCode | Some FlagNotFoundCode | Some TargetingKeyMissingCode => true
    | _ => false
    end
  | Panicked _ => false
  end.

(** The literals [strconv.ParseBool] reads as true, and as false. *)
Definition true_literals : list string := ["1"; "t"; "T"; "TRUE"; "true"; "True"].
Definition false_literals : list string := ["0"; "f"; "F"; "FALSE"; "false"; "False"].

(** The number a list of bytes denotes when the bytes are decimal digits,
    read from the left with [acc] as the number read so far. *)
Fixpoint digits_val (l : list Z) (acc : Z) : Z :=
  match l with
  | [] => acc
  | c :: r => digits_val r (acc * 10 + (c - 48))
  end.

Definition all_digits (l : list Z) : bool := forallb (in_range 48 57) l.

(** A decimal integer literal: an optional sign and one or more decimal
    digits, nothing else; its value. *)
Definition int_literal (l : list Z) : option Z :=
  let '(neg, ds) :=
    match l with
    | c :: r => if c =? 43 then (false, r) else if c =? 45 then (true, r) else (false, l)
    | [] => (false, l)
    end in
  match ds with
  | [] => None
  | _ :: _ =>
    if all_digits ds
    then Some (if neg then - digits_val ds 0 else digits_val ds 0)
    else None
  end.

(** The world an evaluation ends in: after one call of the backend when the
    context maps to a payload, unchanged otherwise. *)
Definition world_after {S} (p : Provider S) (flag : string)
    (evalCtx : gmap string any) (w : World S) : World S :=
  match translateFeatureFlagPayload evalCtx flag with
  | Returned (payload, None) =>
    after_call w payload (snd (GetFeatureFlag (client p) payload (backend w)))
  | _ => w
  end.

(** In world [w] the context maps to a payload for [flag], and the backend
    replies to that payload with the value [v] and the error [e]. *)
Definition replied {S} (p : Provider S) (flag : string)
    (evalCtx : gmap string any) (w : World S) (v : any) (e : option error)
  : Prop :=
  exists payload,
    translateFeatureFlagPayload evalCtx flag = Returned (payload, None)
    /\ fst (GetFeatureFlag (client p) payload (backend w)) = (v, e).

(** Context mapping returned the error [e]. *)
Definition mapping_failed (flag : string) (evalCtx : gmap string any)
    (e : error) : Prop :=
  exists payload,
    translateFeatureFlagPayload evalCtx flag = Returned (payload, Some e).

(** The outcome is a result with the error code [c]. *)
Definition reports {V} (o : outcome (ResolutionDetail V)) (c : ErrorCode) : Prop :=
  exists r, o = Returned r /\ code (ResolutionError_ (Detail r)) = Some c.

(** The outcome is the value [v] with the reason [TargetingMatch] and no
    error. *)
Definition resolves_to {V} (o : outcome (ResolutionDetail V)) (v : V) : Prop :=
  o = Returned (detail v None "" TargetingMatchReason).

(* ===================================================================== *)
(** * The library functions on sample inputs *)
(* ===================================================================== *)

Example ParseBool_vocabulary :
  map strconv.ParseBool ["1"; "t"; "T"; "TRUE"; "true"; "True"]
  = repeat (true, None) 6
  /\ map strconv.ParseBool ["0"; "f"; "F"; "FALSE"; "false"; "False"]
     = repeat (false, None) 6
  /\ map strconv.ParseBool ["yes"; "tRUE"; ""; "invalid boolean"]
     = repeat (false, Some strconv.ErrSyntax) 4.
Proof. repeat split. Qed.

Example ParseInt_bounds :
  strconv.ParseInt "9223372036854775807" 10 = (2 ^ 63 - 1, None)
  /\ strconv.ParseInt "9223372036854775808" 10 = (2 ^ 63 - 1, Some strconv.ErrRange)
  /\ strconv.ParseInt "-9223372036854775808" 10 = (- 2 ^ 63, None)
  /\ strconv.ParseInt "-9223372036854775809" 10 = (- 2 ^ 63, Some strconv.ErrRange)
  /\ strconv.ParseInt "+20" 10 = (20, None)
  /\ strconv.ParseInt "1_000" 10 = (0, Some strconv.ErrSyntax)
  /\ strconv.ParseInt "invalid int" 10 = (0, Some strconv.ErrSyntax)
  /\ strconv.ParseInt "" 10 = (0, Some strconv.ErrSyntax).
Proof. repeat split; vm_compute; reflexivity. Qed.

Example ParseFloat_decimal :
  strconv.ParseFloat "0.55" = (S754_finite false 4953959590107546 (-53), None)
  /\ strconv.ParseFloat "52.5" = (float64_52_5, None)
  /\ strconv.ParseFloat "-0" = (S754_zero true, None)
  /\ strconv.ParseFloat "1_23.50_0e+1_2" = (S754_finite false 7904000000000000 (-6), None)
  /\ strconv.ParseFloat "4.9e-324" = (S754_finite false 1 (-1074), None)
  /\ strconv.ParseFloat "1e-400" = (S754_zero false, None)
  /\ strconv.ParseFloat "1.7976931348623157e308"
     = (S754_finite false 9007199254740991 971, None)
  /\ strconv.ParseFloat "1e400" = (S754_infinity false, Some strconv.ErrRange).
Proof. repeat split; vm_compute; reflexivity. Qed.

Example ParseFloat_other_forms :
  strconv.ParseFloat "0x1p-2" = (S754_finite false 4503599627370496 (-54), None)
  /\ strconv.ParseFloat "+Inf" = (S754_infinity false, None)
  /\ strconv.ParseFloat "-infinity" = (S754_infinity true, None)
  /\ strconv.ParseFloat "NaN" = (S754_nan, None)
  /\ snd (strconv.ParseFloat "+nan") = Some strconv.ErrSyntax
  /\ snd (strconv.ParseFloat "infinit") = Some strconv.ErrSyntax
  /\ snd (strconv.ParseFloat "0x1") = Some strconv.ErrSyntax
  /\ snd (strconv.ParseFloat "1__0") = Some strconv.ErrSyntax
  /\ snd (strconv.ParseFloat "1e") = Some strconv.ErrSyntax
  /\ snd (strconv.ParseFloat "") = Some strconv.ErrSyntax
  /\ snd (strconv.ParseFloat "invalid float") = Some strconv.ErrSyntax.
Proof. repeat split; vm_compute; reflexivity. Qed.

(** [Quote] escapes the double quote, the backslash and the line feed, and
    writes a byte that is not UTF-8 in hexadecimal. *)
Example Quote_escapes :
  strconv.Quote (in_range 256 383) quote_inside
  = dquote +:+ "a" +:+ backslash +:+ dquote +:+ "b" +:+ dquote
  /\ strconv.Quote (in_range 256 383) backslash
     = dquote +:+ backslash +:+ backslash +:+ dquote
  /\ strconv.Quote (in_range 256 383) (String "010"%char "")
     = dquote +:+ backslash +:+ "n" +:+ dquote
  /\ strconv.Quote (in_range 256 383) (String "255"%char "")
     = dquote +:+ backslash +:+ "xff" +:+ dquote.
Proof. repeat split; vm_compute; reflexivity. Qed.

Example json_parse_nested :
  json.parse "[1, [2, {}], -0.5e+3 , null,true ]"
  = Some (json.JArray
            [json.JNumber (bytes_of "1");
             json.JArray [json.JNumber (bytes_of "2"); json.JObject []];
             json.JNumber (bytes_of "-0.5e+3"); json.JNull; json.JBool true])
  /\ json.parse "[01]" = None
  /\ json.parse "[1,]" = None
  /\ json.parse "{} x" = None
  /\ json.parse "" = None
  /\ json.parse "{invalid json" = None.
Proof. repeat split; vm_compute; reflexivity. Qed.

(** A number too large for a [float64] is valid JSON that does not decode;
    of two members with one key the later one stays. *)
Example json_Unmarshal_members :
  json.Unmarshal ("{" +:+ dquote +:+ "a" +:+ dquote +:+ ":1e999}")
  = (Some (<["a" := ANil]> ∅), Some (json.UnmarshalTypeError "number 1e999"))
  /\ json.Unmarshal ("{" +:+ dquote +:+ "a" +:+ dquote +:+ ":true, "
                     +:+ dquote +:+ "a" +:+ dquote +:+ ":[null]}")
     = (Some (<["a" := ASlice [ANil]]> ∅), None).
Proof. repeat split; vm_compute; reflexivity. Qed.

(* ===================================================================== *)
(** * Properties of the library functions *)
(* ===================================================================== *)

Lemma byte_val_range (c : ascii) : 0 <= byte_val c < 256.
Proof.
  unfold byte_val. pose proof (N_ascii_bounded c) as Hb. lia.
Qed.

Lemma byte_chr_val (c : ascii) : byte_chr (byte_val c) = c.
Proof.
  unfold byte_chr. rewrite Z.mod_small by apply byte_val_range.
  unfold byte_val. rewrite N2Z.id. apply ascii_N_embedding.
Qed.

Lemma string_of_bytes_of (s : string) : string_of_bytes (bytes_of s) = s.
Proof.
  induction s as [|c s IH]; simpl; [reflexivity|].
  rewrite byte_chr_val, IH. reflexivity.
Qed.

Lemma string_of_bytes_app (l1 l2 : list Z) :
  string_of_bytes (l1 ++ l2) = string_of_bytes l1 +:+ string_of_bytes l2.
Proof.
  induction l1 as [|b l1 IH]; simpl; [reflexivity|]. rewrite IH. reflexivity.
Qed.

Lemma append_assoc (a b c : string) : (a +:+ b) +:+ c = a +:+ b +:+ c.
Proof.
  induction a as [|x a IH]; [reflexivity|].
  change (String x ((a +:+ b) +:+ c) = String x (a +:+ b +:+ c)).
  f_equal. exact IH.
Qed.

Lemma appendEscapedRune_plain tbl (c : Z) :
  plain_byte c = true -> strconv.appendEscapedRune tbl c = [c].
Proof.
  unfold plain_byte, in_range, strconv.appendEscapedRune, strconv.IsPrint,
    EncodeRune, ValidRune, in_range, MaxRune.
  intros Hc.
  repeat match goal with
         | |- context [?a =? ?b] => destruct (Z.eqb_spec a b); try lia
         | |- context [?a <=? ?b] => destruct (Z.leb_spec a b); try lia
         | |- context [?a <? ?b] => destruct (Z.ltb_spec a b); try lia
         end; simpl in *; try reflexivity; try discriminate; try lia.
Qed.

Lemma quote_loop_plain tbl (l : list Z) (fuel : nat) :
  forallb plain_byte l = true -> (length l <= fuel)%nat ->
  strconv.quote_loop tbl fuel l = l.
Proof.
  revert fuel. induction l as [|b l IH]; intros fuel Hp Hf.
  - destruct fuel; reflexivity.
  - destruct fuel as [|fuel]; [simpl in Hf; lia|].
    simpl in Hp. apply andb_true_iff in Hp as [Hb Hl].
    assert (Hlt : (b <? RuneSelf) = true).
    { unfold plain_byte, in_range, RuneSelf in *. lia. }
    assert (Hne : (b =? RuneError) = false).
    { unfold plain_byte, in_range, RuneError in *. lia. }
    cbn [strconv.quote_loop]. rewrite Hlt.
    cbn [Nat.eqb andb]. rewrite Hne.
    rewrite (appendEscapedRune_plain _ _ Hb).
    cbn [drop app]. rewrite IH; [reflexivity|assumption|simpl in Hf; lia].
Qed.

(** [Quote] puts a plain string between double quotes and changes nothing
    else. *)
Lemma Quote_plain tbl (s : string) :
  plain s = true -> strconv.Quote tbl s = dquote +:+ s +:+ dquote.
Proof.
  intros Hp. unfold strconv.Quote.
  rewrite quote_loop_plain by (auto; lia).
  cbn [string_of_bytes]. rewrite string_of_bytes_app, string_of_bytes_of.
  reflexivity.
Qed.

Lemma ParseBool_FormatBool (b : bool) :
  strconv.ParseBool (strconv.FormatBool b) = (b, None).
Proof. destruct b; reflexivity. Qed.

Lemma DecodeRune_width (c : Z) (s : list Z) : (1 <= snd (DecodeRune (c :: s)))%nat.
Proof.
  unfold DecodeRune. repeat case_match; simpl; lia.
Qed.

(** [Quote] gives its loop all the fuel it can use: every turn of the loop
    consumes a byte or more. *)
Lemma quote_loop_fuel tbl (f1 f2 : nat) (s : list Z) :
  (length s <= f1)%nat -> (length s <= f2)%nat ->
  strconv.quote_loop tbl f1 s = strconv.quote_loop tbl f2 s.
Proof.
  revert f2 s. induction f1 as [|f1 IH]; intros f2 s H1 H2.
  - destruct s; [|simpl in H1; lia]. destruct f2; reflexivity.
  - destruct s as [|b r]; [destruct f2; reflexivity|].
    destruct f2 as [|f2]; [simpl in H2; lia|].
    simpl in H1, H2. cbn [strconv.quote_loop].
    pose proof (DecodeRune_width b r) as Hw.
    destruct (b <? RuneSelf).
    + change (drop 1 (b :: r)) with r.
      rewrite (IH f2 r) by lia. reflexivity.
    + destruct (DecodeRune (b :: r)) as [rr width]. simpl in Hw.
      destruct width as [|width]; [lia|].
      change (drop (Datatypes.S width) (b :: r)) with (drop width r).
      rewrite (IH f2 (drop width r)) by (rewrite length_drop; lia).
      reflexivity.
Qed.

(** ** [ParseInt] after [FormatInt] *)

Lemma uint_val_mono (d : Decimal.uint) (acc : Z) : 0 <= acc -> acc <= uint_val d acc.
Proof.
  revert acc. induction d; intros acc Hacc; simpl; try lia;
    match goal with
    | |- _ <= uint_val _ ?a => specialize (IHd a); lia
    end.
Qed.

Lemma uint_val_of_uint_acc (d : Decimal.uint) (acc : positive) :
  uint_val d (Zpos acc) = Zpos (Pos.of_uint_acc d acc).
Proof.
  revert acc. induction d; intros acc; simpl; try reflexivity;
    match goal with
    | |- uint_val _ ?a = Zpos (Pos.of_uint_acc _ ?p) =>
      replace a with (Zpos p) by lia; apply IHd
    end.
Qed.

Lemma uint_val_of_uint (d : Decimal.uint) :
  uint_val d 0 = Z.of_N (Pos.of_uint d).
Proof.
  induction d; simpl; try reflexivity; try assumption;
    match goal with
    | |- uint_val _ ?a = _ =>
      change a with (Zpos (Z.to_pos a)); apply uint_val_of_uint_acc
    end.
Qed.

Lemma uint_val_to_uint (p : positive) : uint_val (Pos.to_uint p) 0 = Zpos p.
Proof.
  rewrite uint_val_of_uint, DecimalPos.Unsigned.of_to. reflexivity.
Qed.

Lemma ParseUint_loop_digit (k acc : Z) (rest : list Z) :
  0 <= k <= 9 -> 0 <= acc -> acc * 10 + k <= strconv.maxUint64 ->
  strconv.ParseUint_loop 10 (48 + k :: rest) acc
  = strconv.ParseUint_loop 10 rest (acc * 10 + k).
Proof.
  unfold strconv.maxUint64. intros Hk Hacc Hmax.
  cbn [strconv.ParseUint_loop]. unfold in_range, strconv.maxUint64, strconv.wrap64.
  replace (48 + k - 48) with k by lia.
  change (2 ^ 64 - 1) with 18446744073709551615 in *.
  change (18446744073709551615 / 10 + 1) with 1844674407370955162.
  change (2 ^ 64) with 18446744073709551616.
  rewrite (Z.mod_small (acc * 10)) by lia.
  destruct (Z.leb_spec 48 (48 + k)); [|lia].
  destruct (Z.leb_spec (48 + k) 57); [|lia].
  cbn [andb]. rewrite (Z.mod_small (acc * 10 + k)) by lia.
  destruct (Z.leb_spec 10 k); [lia|].
  destruct (Z.leb_spec 1844674407370955162 acc); [lia|].
  destruct (Z.ltb_spec (acc * 10 + k) (acc * 10)); [lia|].
  destruct (Z.ltb_spec 18446744073709551615 (acc * 10 + k)); [lia|].
  reflexivity.
Qed.

Lemma ParseUint_loop_digits (d : Decimal.uint) (acc : Z) :
  0 <= acc -> uint_val d acc <= strconv.maxUint64 ->
  strconv.ParseUint_loop 10 (bytes_of (NilEmpty.string_of_uint d)) acc
  = (uint_val d acc, None).
Proof.
  revert acc.
  induction d; intros acc Hacc Hmax; [reflexivity|..];
    cbn [NilEmpty.string_of_uint bytes_of uint_val] in *;
    match goal with
    | H : uint_val ?d ?a <= _ |- _ =>
      pose proof (uint_val_mono d a ltac:(lia)) as Hm
    end;
    match goal with
    | |- context [byte_val ?c :: _] =>
      let v := eval vm_compute in (byte_val c - 48) in
      change (byte_val c) with (48 + v)
    end;
    rewrite ParseUint_loop_digit by lia;
    rewrite ?Z.add_0_r in *; apply IHd; lia.
Qed.

Lemma string_of_uint_nonempty (d : Decimal.uint) :
  d <> Decimal.Nil -> NilEmpty.string_of_uint d <> "".
Proof. destruct d; intros Hd; try discriminate. congruence. Qed.

Lemma ParseUint_to_uint (p : positive) :
  Zpos p <= strconv.maxUint64 ->
  strconv.ParseUint (NilZero.string_of_uint (Pos.to_uint p)) 10 = (Zpos p, None).
Proof.
  intros Hp. pose proof (DecimalPos.Unsigned.to_uint_nonnil p) as Hnn.
  assert (Hs : NilZero.string_of_uint (Pos.to_uint p)
               = NilEmpty.string_of_uint (Pos.to_uint p)).
  { destruct (Pos.to_uint p); [congruence|reflexivity..]. }
  rewrite Hs. unfold strconv.ParseUint.
  destruct (String.eqb_spec (NilEmpty.string_of_uint (Pos.to_uint p)) "") as [He|_].
  - exfalso. exact (string_of_uint_nonempty _ Hnn He).
  - rewrite ParseUint_loop_digits; rewrite ?uint_val_to_uint; [reflexivity|lia|lia].
Qed.

(** The first byte of the digits of a positive number is a digit, not a
    sign. *)
Lemma string_of_uint_head (d : Decimal.uint) :
  d <> Decimal.Nil ->
  exists c r, NilZero.string_of_uint d = String c r /\
              (byte_val c =? 43) = false /\ (byte_val c =? 45) = false.
Proof.
  destruct d; intros Hd; [congruence|..]; eexists _, _;
    (split; [reflexivity|split; reflexivity]).
Qed.

(** Round trip of the integer coercion: parsing the decimal digits of an
    [int64] gives the number back. *)
Lemma ParseInt_FormatInt (n : Z) :
  int64_range n -> strconv.ParseInt (strconv.FormatInt n) 10 = (n, None).
Proof.
  unfold int64_range, strconv.FormatInt. intros Hn.
  destruct n as [|p|p]; [reflexivity|..]; cbn [Z.to_int NilZero.string_of_int].
  - destruct (string_of_uint_head (Pos.to_uint p)
                (DecimalPos.Unsigned.to_uint_nonnil p)) as (c & r & Hs & H43 & H45).
    pose proof (ParseUint_to_uint p) as Hu. rewrite Hs in *.
    unfold strconv.ParseInt. rewrite H43, H45.
    rewrite Hu by (unfold strconv.maxUint64; lia).
    unfold strconv.int64_of_uint64.
    destruct (Z.leb_spec (2 ^ 63) (Z.pos p)); [lia|].
    destruct (Z.ltb_spec (Z.pos p) (2 ^ 63)); [|lia].
    reflexivity.
  - unfold strconv.ParseInt.
    change (byte_val "-" =? 43) with false.
    change (byte_val "-" =? 45) with true. cbv iota beta.
    rewrite ParseUint_to_uint by (unfold strconv.maxUint64; lia).
    unfold strconv.neg64, strconv.int64_of_uint64, strconv.wrap64.
    cbn [negb andb].
    destruct (Z.ltb_spec (2 ^ 63) (Z.pos p)); [lia|].
    destruct (Z.ltb_spec (Z.pos p) (2 ^ 63)).
    + replace (- Z.pos p) with (2 ^ 64 - Z.pos p + (-1) * 2 ^ 64) by lia.
      rewrite Z.mod_add, Z.mod_small by lia.
      destruct (Z.ltb_spec (2 ^ 64 - Z.pos p) (2 ^ 63)); [lia|].
      f_equal. lia.
    + assert (Hp : Z.pos p = 2 ^ 63) by lia. rewrite Hp.
      replace (Z.neg p) with (- 2 ^ 63) by lia. reflexivity.
Qed.

(** ** The JSON scanner never runs out of fuel *)

Lemma skip_space_length (s : list Z) : (length (json.skip_space s) <= length s)%nat.
Proof.
  induction s as [|c s IH]; simpl; [lia|]. destruct (json.isSpace c); simpl; lia.
Qed.

Lemma scan_string_length (f : nat) (s out rest : list Z) :
  json.scan_string f s = Some (out, rest) -> (length rest < length s)%nat.
Proof.
  revert s out rest. induction f as [|f IH]; intros s out rest Hs; [discriminate|].
  destruct s as [|c r]; [discriminate|]. cbn [json.scan_string] in Hs.
  repeat case_match; simplify_eq;
    repeat match goal with
           | H : json.scan_string f _ = Some _ |- _ => apply IH in H
           end;
    rewrite ?length_drop in *; simpl in *; try lia.
Qed.

Lemma scan_string_fuel (f1 f2 : nat) (s : list Z) :
  (length s <= f1)%nat -> (length s <= f2)%nat ->
  json.scan_string f1 s = json.scan_string f2 s.
Proof.
  revert f2 s. induction f1 as [|f1 IH]; intros f2 s H1 H2.
  - destruct s; [|simpl in H1; lia]. destruct f2; reflexivity.
  - destruct f2 as [|f2]; [destruct s; [reflexivity|simpl in H2; lia]|].
    destruct s as [|c r]; [reflexivity|]. simpl in H1, H2.
    pose proof (DecodeRune_width c r) as Hw.
    cbn [json.scan_string].
    repeat case_match; simplify_eq; try reflexivity;
      repeat match goal with
             | Ha : json.scan_string f1 ?X = _, Hb : json.scan_string f2 ?X = _ |- _ =>
               rewrite (IH f2 X) in Ha
                 by (rewrite ?length_drop; simpl in *; lia);
               rewrite Ha in Hb; clear Ha
             end;
      simplify_eq; try reflexivity.
Qed.

Lemma span_digits_length (s ds rest : list Z) :
  json.span_digits s = (ds, rest) -> (length rest <= length s)%nat.
Proof.
  revert ds rest. induction s as [|c s IH]; intros ds rest Hs;
    cbn [json.span_digits] in Hs.
  - simplify_eq. simpl. lia.
  - destruct (in_range 48 57 c); [|simplify_eq; simpl; lia].
    destruct (json.span_digits s) as [ds' rest'] eqn:Hd. simplify_eq.
    specialize (IH _ _ eq_refl). simpl. lia.
Qed.

Lemma scan_number_length (s lit rest : list Z) :
  json.scan_number s = Some (lit, rest) -> (length rest < length s)%nat.
Proof.
  unfold json.scan_number. intros Hs.
  repeat case_match; simplify_eq;
    repeat match goal with
           | Hd : json.span_digits _ = _ |- _ => apply span_digits_length in Hd
           end;
    simpl in *; lia.
Qed.

Lemma expect_length (lit s rest : list Z) :
  json.expect lit s = Some rest -> (length rest <= length s)%nat.
Proof.
  revert s rest. induction lit as [|l lit IH]; intros s rest Hs; simpl in Hs.
  - simplify_eq. lia.
  - destruct s as [|c s]; [discriminate|]. case_match; [|discriminate].
    apply IH in Hs. simpl. lia.
Qed.

(** Records, for every [skip_space x] among the hypotheses, that it is no
    longer than [x]. *)
Ltac note_space :=
  repeat match goal with
         | H : context [json.skip_space ?x] |- _ =>
           lazymatch goal with
           | _ : (length (json.skip_space x) <= length x)%nat |- _ => fail
           | _ => pose proof (skip_space_length x)
           end
         end.

(** Turns what the scanners returned into bounds on lengths. *)
Ltac note_lengths IHv IHe IHm :=
  note_space;
  repeat match goal with
         | H : json.scan_value _ _ _ = Some _ |- _ => apply IHv in H
         | H : json.scan_elements _ _ _ = Some _ |- _ => apply IHe in H
         | H : json.scan_members _ _ _ = Some _ |- _ => apply IHm in H
         | H : json.scan_string _ _ = Some _ |- _ => apply scan_string_length in H
         | H : json.expect _ _ = Some _ |- _ => apply expect_length in H
         | H : json.scan_number _ = Some _ |- _ => apply scan_number_length in H
         end;
  repeat match goal with
         | H : json.skip_space ?x = _ |- _ => rewrite H in *; clear H
         end;
  simpl in *.

(** What a scanner returns as the rest is shorter than its input. *)
Lemma scan_value_length (f : nat) :
  (forall d s v rest,
      json.scan_value f d s = Some (v, rest) -> (length rest < length s)%nat)
  /\ (forall d s vs rest,
         json.scan_elements f d s = Some (vs, rest) -> (length rest < length s)%nat)
  /\ (forall d s ms rest,
         json.scan_members f d s = Some (ms, rest) -> (length rest < length s)%nat).
Proof.
  induction f as [|f (IHv & IHe & IHm)]; [repeat split; intros; discriminate|].
  repeat split; intros d s ? rest Hs.
  - destruct s as [|c r]; [discriminate|]. cbn [json.scan_value] in Hs.
    repeat case_match; simplify_eq; note_lengths IHv IHe IHm; lia.
  - cbn [json.scan_elements] in Hs.
    repeat case_match; simplify_eq; note_lengths IHv IHe IHm; lia.
  - cbn [json.scan_members] in Hs.
    repeat case_match; simplify_eq; note_lengths IHv IHe IHm; lia.
Qed.

(** Collects the bounds on lengths that the hypotheses give, without
    consuming them, and closes a goal of linear arithmetic. *)
Ltac length_bounds :=
  repeat match goal with
         | |- context [json.skip_space ?x] =>
           lazymatch goal with
           | _ : (length (json.skip_space x) <= length x)%nat |- _ => fail
           | _ => pose proof (skip_space_length x)
           end
         end;
  note_space;
  repeat match goal with
         | H : json.scan_value ?f ?d ?s = Some (?v, ?rest) |- _ =>
           lazymatch goal with
           | _ : (length rest < length s)%nat |- _ => fail
           | _ => pose proof (proj1 (scan_value_length f) d s v rest H)
           end
         | H : json.scan_string ?f ?s = Some (?v, ?rest) |- _ =>
           lazymatch goal with
           | _ : (length rest < length s)%nat |- _ => fail
           | _ => pose proof (scan_string_length f s v rest H)
           end
         end;
  repeat match goal with
         | H : json.skip_space ?x = _ |- _ => rewrite H in *; clear H
         end;
  simpl in *; lia.

(** Fuel beyond twice the length of the input changes nothing. *)
Lemma scan_value_fuel (f1 : nat) :
  (forall f2 d s, (2 * length s <= f1)%nat -> (2 * length s <= f2)%nat ->
                  json.scan_value f1 d s = json.scan_value f2 d s)
  /\ (forall f2 d s, (2 * length s + 1 <= f1)%nat -> (2 * length s + 1 <= f2)%nat ->
                     json.scan_elements f1 d s = json.scan_elements f2 d s)
  /\ (forall f2 d s, (2 * length s + 1 <= f1)%nat -> (2 * length s + 1 <= f2)%nat ->
                     json.scan_members f1 d s = json.scan_members f2 d s).
Proof.
  induction f1 as [|f1 (IHv & IHe & IHm)].
  - repeat split; intros f2 d s H1 H2; try lia.
    destruct s; [|simpl in H1; lia]. destruct f2; reflexivity.
  - repeat split; intros f2 d s H1 H2.
    + destruct s as [|c r]; [destruct f2; reflexivity|].
      destruct f2 as [|f2]; [simpl in H2; lia|].
      cbn [json.scan_value]. simpl in H1, H2.
      repeat first
        [ reflexivity
        | match goal with
          | |- context [json.scan_members f2 ?d' ?X] =>
            rewrite <- (IHm f2 d' X) by length_bounds
          | |- context [json.scan_elements f2 ?d' ?X] =>
            rewrite <- (IHe f2 d' X) by length_bounds
          end
        | case_match ].
    + destruct f2 as [|f2]; [lia|].
      cbn [json.scan_elements].
      rewrite <- (IHv f2 d s) by lia.
      repeat first
        [ reflexivity
        | match goal with
          | |- context [json.scan_elements f2 ?d' ?X] =>
            rewrite <- (IHe f2 d' X) by length_bounds
          end
        | case_match ].
    + destruct f2 as [|f2]; [lia|].
      cbn [json.scan_members].
      repeat first
        [ reflexivity
        | match goal with
          | |- context [json.scan_value f2 ?d' ?X] =>
            rewrite <- (IHv f2 d' X) by length_bounds
          | |- context [json.scan_members f2 ?d' ?X] =>
            rewrite <- (IHm f2 d' X) by length_bounds
          end
        | case_match ].
Qed.

(** [json.parse] gives the scanner all the fuel it can use. *)
Lemma parse_with_enough (fuel : nat) (data : string) :
  (2 * length (bytes_of data) + 1 <= fuel)%nat ->
  json.parse_with fuel data = json.parse data.
Proof.
  intros Hf. unfold json.parse, json.parse_with.
  pose proof (skip_space_length (bytes_of data)) as Hs.
  rewrite (proj1 (scan_value_fuel fuel) (2 * length (bytes_of data) + 1)%nat)
    by lia.
  reflexivity.
Qed.

(* ===================================================================== *)
(** * Properties of the provider *)
(* ===================================================================== *)

Section ProviderFacts.
Context `{GoLibrary}.
Context {S : Type}.

(** One run of [getFeatureFlag]: the backend is called once, and the reply
    is classified. *)
Lemma getFeatureFlag_run (p : Provider S) payload (w : World S) r (s' : S) :
  GetFeatureFlag (client p) payload (backend w) = (r, s') ->
  getFeatureFlag p payload w
  = (Returned (fst r, match snd r with
                             | Some _ => false
                             | None => negb (is_bool (fst r))
                             end, snd r), after_call w payload s').
Proof.
  intros Hr. unfold getFeatureFlag, call_GetFeatureFlag, mbind, M_bind, mret, M_ret.
  rewrite Hr. destruct r as [res [e|]]; [reflexivity|].
  destruct res; reflexivity.
Qed.

(** [Sprintf_q] on a plain string: the string between double quotes. *)
Lemma Sprintf_q_plain (s : string) :
  plain s = true -> Sprintf_q s = dquote +:+ s +:+ dquote.
Proof. apply Quote_plain. Qed.

End ProviderFacts.

(** Unfolds an entry point down to the calls of [translateFeatureFlagPayload]
    and [getFeatureFlag]. *)
Ltac unfold_entry :=
  unfold BooleanEvaluation, FloatEvaluation, IntEvaluation, ObjectEvaluation,
    StringEvaluation, mbind, M_bind, mret, M_ret, lift.

(** Runs an entry point whose context maps to a payload ([Hctx]) and whose
    backend replies as [Hreply] says. *)
Ltac run_entry Hctx Hreply :=
  unfold_entry; rewrite Hctx;
  rewrite (getFeatureFlag_run _ _ _ _ _ Hreply); cbn [negb].

Section Claims.
Context `{GoLibrary}.
Context {S : Type}.
Implicit Types (p : Provider S) (w : World S) (flag : string)
  (evalCtx : gmap string any) (payload : posthog.FeatureFlagPayload).

(** C1. Whenever the backend answers with a boolean and no error, be it
    [true] or [false], the lookup is classified as not found, and each of
    the five entry points returns the caller's default, the reason
    [Default] and a [FlagNotFound] error whose message is the quoted flag
    name followed by [ not found]; for a plain flag name that is the name
    between double quotes. The backend was called once. *)
Theorem C1_boolean_reply_is_not_found p w flag evalCtx payload (b : bool) (s' : S) :
  translateFeatureFlagPayload evalCtx flag = Returned (payload, None) ->
  GetFeatureFlag (client p) payload (backend w) = ((ABool b, None), s') ->
  let w' := after_call w payload s' in
  let msg := Sprintf_q flag +:+ " not found" in
  getFeatureFlag p payload w = (Returned (ABool b, false, None), w')
  /\ (forall d, BooleanEvaluation p flag d evalCtx w
                = (Returned (detail d (Some FlagNotFoundCode) msg DefaultReason), w'))
  /\ (forall d, IntEvaluation p flag d evalCtx w
                = (Returned (detail d (Some FlagNotFoundCode) msg DefaultReason), w'))
  /\ (forall d, FloatEvaluation p flag d evalCtx w
                = (Returned (detail d (Some FlagNotFoundCode) msg DefaultReason), w'))
  /\ (forall d, StringEvaluation p flag d evalCtx w
                = (Returned (detail d (Some FlagNotFoundCode) msg DefaultReason), w'))
  /\ (forall d, ObjectEvaluation p flag d evalCtx w
                = (Returned (detail d (Some FlagNotFoundCode) msg DefaultReason), w'))
  /\ (plain flag = true -> msg = dquote +:+ flag +:+ dquote +:+ " not found").
Proof.
  intros Hctx Hreply w' msg.
  split; [exact (getFeatureFlag_run _ _ _ _ _ Hreply)|].
  repeat split; try (intros d; run_entry Hctx Hreply; reflexivity).
  intros Hp. subst msg. rewrite (Sprintf_q_plain _ Hp).
  rewrite !append_assoc. reflexivity.
Qed.

(** C2. On a context without the targeting key, [BooleanEvaluation]
    returns the default with a [TargetingKeyMissing] error and the reason
    [Error]; [IntEvaluation], [FloatEvaluation], [StringEvaluation] and
    [ObjectEvaluation] return the default with a [General] error and the
    reason [Error]. The backend is not called. *)
Theorem C2_missing_targeting_key p w flag evalCtx :
  evalCtx !! DistinctIDContextKey = None ->
  let msg := "missing target key in evaluation context" in
  (forall d, BooleanEvaluation p flag d evalCtx w
             = (Returned (detail d (Some TargetingKeyMissingCode) msg ErrorReason), w))
  /\ (forall d, IntEvaluation p flag d evalCtx w
                = (Returned (detail d (Some GeneralCode) msg ErrorReason), w))
  /\ (forall d, FloatEvaluation p flag d evalCtx w
                = (Returned (detail d (Some GeneralCode) msg ErrorReason), w))
  /\ (forall d, StringEvaluation p flag d evalCtx w
                = (Returned (detail d (Some GeneralCode) msg ErrorReason), w))
  /\ (forall d, ObjectEvaluation p flag d evalCtx w
                = (Returned (detail d (Some GeneralCode) msg ErrorReason), w)).
Proof.
  intros Hkey msg.
  assert (Hctx : translateFeatureFlagPayload evalCtx flag
                 = Returned (posthog.zero_FeatureFlagPayload, Some errMissingTargetKey)).
  { unfold translateFeatureFlagPayload. rewrite Hkey. reflexivity. }
  repeat split; intros d; unfold_entry; rewrite Hctx; reflexivity.
Qed.

(** C3 (as amended). When the backend answers with a string [s] that does
    not parse as the expected scalar type, [BooleanEvaluation],
    [IntEvaluation] and [FloatEvaluation] return the caller's default, the
    reason [Error] and a [TypeMismatch] error whose message is [s] as
    [%q] prints it, followed by [ is not a boolean], [ is not a int] or
    [ is not a float]. [%q] writes [s] between double quotes and escapes
    what is not plain in it; a plain [s] appears unchanged between the
    quotes. *)
Theorem C3_unparsable_value p w flag evalCtx payload (s : string) (s' : S) :
  translateFeatureFlagPayload evalCtx flag = Returned (payload, None) ->
  GetFeatureFlag (client p) payload (backend w) = ((AString s, None), s') ->
  let w' := after_call w payload s' in
  (forall d, snd (strconv.ParseBool s) <> None ->
     BooleanEvaluation p flag d evalCtx w
     = (Returned (detail d (Some TypeMismatchCode)
                    (Sprintf_q s +:+ " is not a boolean") ErrorReason), w'))
  /\ (forall d, snd (strconv.ParseInt s 10) <> None ->
        IntEvaluation p flag d evalCtx w
        = (Returned (detail d (Some TypeMismatchCode)
                       (Sprintf_q s +:+ " is not a int") ErrorReason), w'))
  /\ (forall d, snd (strconv.ParseFloat s) <> None ->
        FloatEvaluation p flag d evalCtx w
        = (Returned (detail d (Some TypeMismatchCode)
                       (Sprintf_q s +:+ " is not a float") ErrorReason), w'))
  /\ (plain s = true -> Sprintf_q s = dquote +:+ s +:+ dquote).
Proof.
  intros Hctx Hreply w'.
  split; [|split; [|split]]; [| | |apply Sprintf_q_plain];
    intros d Herr; run_entry Hctx Hreply; cbn [fst snd is_bool negb];
    unfold parseFlagValue.
  - destruct (strconv.ParseBool s) as [v [e|]]; [reflexivity|].
    exfalso; apply Herr; reflexivity.
  - destruct (strconv.ParseInt s 10) as [v [e|]]; [reflexivity|].
    exfalso; apply Herr; reflexivity.
  - destruct (strconv.ParseFloat s) as [v [e|]]; [reflexivity|].
    exfalso; apply Herr; reflexivity.
Qed.

(** C4. When the context maps to a payload and the backend answers with a
    string that parses as the expected type, the entry point returns the
    parsed value, the reason [TargetingMatch] and no resolution error;
    [StringEvaluation] returns the string unchanged, and
    [ObjectEvaluation] the map the string decodes to. *)
Theorem C4_well_formed_value p w flag evalCtx payload (s : string) (s' : S) :
  translateFeatureFlagPayload evalCtx flag = Returned (payload, None) ->
  GetFeatureFlag (client p) payload (backend w) = ((AString s, None), s') ->
  let w' := after_call w payload s' in
  (forall d b, strconv.ParseBool s = (b, None) ->
     BooleanEvaluation p flag d evalCtx w
     = (Returned (detail b None "" TargetingMatchReason), w'))
  /\ (forall d i, strconv.ParseInt s 10 = (i, None) ->
        IntEvaluation p flag d evalCtx w
        = (Returned (detail i None "" TargetingMatchReason), w'))
  /\ (forall d f, strconv.ParseFloat s = (f, None) ->
        FloatEvaluation p flag d evalCtx w
        = (Returned (detail f None "" TargetingMatchReason), w'))
  /\ (forall d, StringEvaluation p flag d evalCtx w
                = (Returned (detail s None "" TargetingMatchReason), w'))
  /\ (forall d obj, json.Unmarshal s = (obj, None) ->
        ObjectEvaluation p flag d evalCtx w
        = (Returned (detail (AMap obj) None "" TargetingMatchReason), w')).
Proof.
  intros Hctx Hreply w'.
  repeat split; intros d; try intros v Hv; run_entry Hctx Hreply;
    cbn [fst snd is_bool negb]; unfold parseFlagValue; rewrite ?Hv; reflexivity.
Qed.

(** C5. [ObjectEvaluation] decodes the string the backend answers with as
    a JSON object into a map from strings to values: when decoding
    succeeds it returns the map with the reason [TargetingMatch] and no
    error, and when decoding fails it returns the default with the reason
    [Error] and a [TypeMismatch] error whose message is
    [invalid JSON as flag value]. The object with the name [jane doe] and
    the age 52.5 decodes to the map of [name] to that string and [age] to
    that number; [{invalid json] does not decode. *)
Theorem C5_object_decoding p w flag evalCtx payload (s : string) (s' : S) d :
  translateFeatureFlagPayload evalCtx flag = Returned (payload, None) ->
  GetFeatureFlag (client p) payload (backend w) = ((AString s, None), s') ->
  let w' := after_call w payload s' in
  ObjectEvaluation p flag d evalCtx w
  = (Returned match json.Unmarshal s with
              | (obj, None) => detail (AMap obj) None "" TargetingMatchReason
              | (_, Some _) =>
                detail d (Some TypeMismatchCode) "invalid JSON as flag value"
                  ErrorReason
              end, w')
  /\ json.Unmarshal jane_doe_json = (Some jane_doe_map, None)
  /\ (s = jane_doe_json ->
      ObjectEvaluation p flag d evalCtx w
      = (Returned (detail (AMap (Some jane_doe_map)) None "" TargetingMatchReason), w'))
  /\ json.Unmarshal "{invalid json" = (None, Some json.SyntaxError)
  /\ (s = "{invalid json" ->
      ObjectEvaluation p flag d evalCtx w
      = (Returned (detail d (Some TypeMismatchCode) "invalid JSON as flag value"
                     ErrorReason), w')).
Proof.
  intros Hctx Hreply w'.
  assert (Hjane : json.Unmarshal jane_doe_json = (Some jane_doe_map, None))
    by (vm_compute; reflexivity).
  assert (Hinv : json.Unmarshal "{invalid json" = (None, Some json.SyntaxError))
    by (vm_compute; reflexivity).
  assert (Hrun : ObjectEvaluation p flag d evalCtx w
    = (Returned match json.Unmarshal s with
                | (obj, None) => detail (AMap obj) None "" TargetingMatchReason
                | (_, Some _) =>
                  detail d (Some TypeMismatchCode) "invalid JSON as flag value"
                    ErrorReason
                end, w')).
  { run_entry Hctx Hreply. cbn [fst snd is_bool negb].
    destruct (json.Unmarshal s) as [obj [e|]]; reflexivity. }
  repeat split; try assumption.
  - intros ->. rewrite Hrun, Hjane. reflexivity.
  - intros ->. rewrite Hrun, Hinv. reflexivity.
Qed.

(** C6, where it holds and where it fails. When the backend answers with
    a value that is neither a boolean nor a string, the four scalar entry
    points return the default with a [TypeMismatch] error and the reason
    [Error]: [parseFlagValue] checks its type assertion.
    [ObjectEvaluation] asserts the string type without a check and
    panics. *)
Theorem C6_non_string_reply p w flag evalCtx payload (v : any) (s' : S) :
  translateFeatureFlagPayload evalCtx flag = Returned (payload, None) ->
  GetFeatureFlag (client p) payload (backend w) = ((v, None), s') ->
  is_bool v = false -> is_string v = false ->
  let w' := after_call w payload s' in
  let msg := Sprint v +:+ " is not a string" in
  (forall T, parseFlagValue T v
             = (zero_value T, Some (NewTypeMismatchResolutionError msg)))
  /\ (forall d, BooleanEvaluation p flag d evalCtx w
                = (Returned (detail d (Some TypeMismatchCode) msg ErrorReason), w'))
  /\ (forall d, IntEvaluation p flag d evalCtx w
                = (Returned (detail d (Some TypeMismatchCode) msg ErrorReason), w'))
  /\ (forall d, FloatEvaluation p flag d evalCtx w
                = (Returned (detail d (Some TypeMismatchCode) msg ErrorReason), w'))
  /\ (forall d, StringEvaluation p flag d evalCtx w
                = (Returned (detail d (Some TypeMismatchCode) msg ErrorReason), w'))
  /\ (forall d, ObjectEvaluation p flag d evalCtx w
                = (Panicked (TypeAssertionError v "string"), w')).
Proof.
  intros Hctx Hreply Hb Hs w' msg.
  repeat split; try (intros T; destruct v; try discriminate; reflexivity);
    intros d; run_entry Hctx Hreply; cbn [fst snd]; rewrite Hb; cbn [negb];
    destruct v; try discriminate; reflexivity.
Qed.

(** C7 (as amended). On a context that contains the targeting key: when
    the value under [groups] is present and not a [posthog.Groups], or the
    value under [properties] is present and not a [PostHogProperties],
    context mapping fails and every entry point returns the default with
    a [General] error and the reason [Error], without calling the
    backend. When both are well typed or absent and the targeting key is
    a string, mapping succeeds with the payload made of the flag name,
    the key, the groups and the two property maps. *)
Theorem C7_groups_and_properties p w flag evalCtx (key : any) :
  evalCtx !! DistinctIDContextKey = Some key ->
  (groups_well_typed evalCtx && properties_well_typed evalCtx = false ->
     let err := if groups_well_typed evalCtx
                then errInvalidProperties else errInvalidGroups in
     let msg := if groups_well_typed evalCtx
                then "invalid properties in evaluation context"
                else "invalid groups in evaluation context" in
     translateFeatureFlagPayload evalCtx flag
     = Returned (posthog.zero_FeatureFlagPayload, Some err)
     /\ (forall d, BooleanEvaluation p flag d evalCtx w
                   = (Returned (detail d (Some GeneralCode) msg ErrorReason), w))
     /\ (forall d, IntEvaluation p flag d evalCtx w
                   = (Returned (detail d (Some GeneralCode) msg ErrorReason), w))
     /\ (forall d, FloatEvaluation p flag d evalCtx w
                   = (Returned (detail d (Some GeneralCode) msg ErrorReason), w))
     /\ (forall d, StringEvaluation p flag d evalCtx w
                   = (Returned (detail d (Some GeneralCode) msg ErrorReason), w))
     /\ (forall d, ObjectEvaluation p flag d evalCtx w
                   = (Returned (detail d (Some GeneralCode) msg ErrorReason), w)))
  /\ (groups_well_typed evalCtx && properties_well_typed evalCtx = true ->
      forall id, key = AString id ->
        translateFeatureFlagPayload evalCtx flag
        = Returned (mapped_payload evalCtx flag id, None)).
Proof.
  intros Hkey. split.
  - intros Hbad err msg.
    unfold groups_well_typed, properties_well_typed in *.
    assert (Hctx : translateFeatureFlagPayload evalCtx flag
                   = Returned (posthog.zero_FeatureFlagPayload, Some err)).
    { subst err. unfold translateFeatureFlagPayload. rewrite Hkey.
      destruct (evalCtx !! GroupsContextKey) as [[]|];
        try reflexivity;
        destruct (evalCtx !! PropertiesContextKey) as [[]|];
        try reflexivity; discriminate Hbad. }
    split; [exact Hctx|].
    assert (Hmsg : Error err = msg).
    { subst err msg.
      destruct (evalCtx !! GroupsContextKey) as [[]|]; reflexivity. }
    assert (His : errors_Is err errMissingTargetKey = false).
    { subst err.
      destruct (evalCtx !! GroupsContextKey) as [[]|]; reflexivity. }
    repeat split; intros d; unfold_entry; rewrite Hctx; cbv iota beta;
      rewrite ?His, Hmsg; reflexivity.
  - intros Hok id ->. unfold groups_well_typed, properties_well_typed in *.
    unfold translateFeatureFlagPayload, mapped_payload. rewrite Hkey.
    destruct (evalCtx !! GroupsContextKey) as [[]|];
      try discriminate Hok;
      destruct (evalCtx !! PropertiesContextKey) as [[]|];
      try discriminate Hok; reflexivity.
Qed.

(** C8. When the context maps to a payload and the call of the backend
    returns an error, every entry point returns the caller's default with
    a [General] error that carries the text of that error, and the reason
    [Error]. The backend has been called exactly once, with that payload:
    nothing is retried. *)
Theorem C8_transport_error p w flag evalCtx payload (res : any) (err : error)
    (s' : S) :
  translateFeatureFlagPayload evalCtx flag = Returned (payload, None) ->
  GetFeatureFlag (client p) payload (backend w) = ((res, Some err), s') ->
  let w' := after_call w payload s' in
  (forall d, BooleanEvaluation p flag d evalCtx w
             = (Returned (detail d (Some GeneralCode) (Error err) ErrorReason), w'))
  /\ (forall d, IntEvaluation p flag d evalCtx w
                = (Returned (detail d (Some GeneralCode) (Error err) ErrorReason), w'))
  /\ (forall d, FloatEvaluation p flag d evalCtx w
                = (Returned (detail d (Some GeneralCode) (Error err) ErrorReason), w'))
  /\ (forall d, StringEvaluation p flag d evalCtx w
                = (Returned (detail d (Some GeneralCode) (Error err) ErrorReason), w'))
  /\ (forall d, ObjectEvaluation p flag d evalCtx w
                = (Returned (detail d (Some GeneralCode) (Error err) ErrorReason), w'))
  /\ calls w' = (calls w ++ [payload])%list
  /\ length (calls w') = Datatypes.S (length (calls w)).
Proof.
  intros Hctx Hreply w'.
  repeat split; try (intros d; run_entry Hctx Hreply; reflexivity).
  subst w'. unfold after_call. cbn [calls]. rewrite length_app. simpl. lia.
Qed.

(** C10. When the backend answers with a string that is valid JSON and
    whose top-level value is not an object, [ObjectEvaluation] returns
    the default with the reason [Error] and a [TypeMismatch] error whose
    message is [invalid JSON as flag value], except when that value is
    [null]: then decoding succeeds and [ObjectEvaluation] returns the nil
    map with the reason [TargetingMatch] and no error. An array, a
    number, [true] and a string are such values. *)
Theorem C10_json_that_is_no_object p w flag evalCtx payload (s : string)
    (j : json.value) (s' : S) d :
  translateFeatureFlagPayload evalCtx flag = Returned (payload, None) ->
  GetFeatureFlag (client p) payload (backend w) = ((AString s, None), s') ->
  json.parse s = Some j ->
  is_object j = false ->
  let w' := after_call w payload s' in
  ObjectEvaluation p flag d evalCtx w
  = (Returned (if is_null j
               then detail (AMap None) None "" TargetingMatchReason
               else detail d (Some TypeMismatchCode) "invalid JSON as flag value"
                      ErrorReason), w')
  /\ json.parse "[1,2]" = Some (json.JArray [json.JNumber [49]; json.JNumber [50]])
  /\ json.parse "5" = Some (json.JNumber [53])
  /\ json.parse "true" = Some (json.JBool true)
  /\ json.parse (dquote +:+ "text" +:+ dquote) = Some (json.JString (bytes_of "text"))
  /\ json.parse "null" = Some json.JNull.
Proof.
  intros Hctx Hreply Hparse Hobj w'.
  split; [|repeat split; vm_compute; reflexivity].
  run_entry Hctx Hreply. cbn [fst snd is_bool negb].
  unfold json.Unmarshal. rewrite Hparse.
  destruct j; try discriminate Hobj; reflexivity.
Qed.

End Claims.

(** ** The coercions after the canonical formatting *)

Section RoundTrip.
Context `{GoLibrary}.

(** Coercing the text of a boolean gives the boolean back. *)
Lemma parseFlagValue_FormatBool (b : bool) :
  parseFlagValue T_bool (AString (strconv.FormatBool b)) = (b, None).
Proof. destruct b; reflexivity. Qed.

(** Coercing the decimal digits of an [int64] gives the number back. *)
Lemma parseFlagValue_FormatInt (n : Z) :
  int64_range n ->
  parseFlagValue T_int64 (AString (strconv.FormatInt n)) = (n, None).
Proof.
  intros Hn. unfold parseFlagValue. rewrite (ParseInt_FormatInt n Hn). reflexivity.
Qed.

(** The string coercion returns its argument. *)
Lemma parseFlagValue_string (s : string) :
  parseFlagValue T_string (AString s) = (s, None).
Proof. reflexivity. Qed.

End RoundTrip.

(* ===================================================================== *)
(** * The properties at sample inputs *)
(* ===================================================================== *)

(** A backend that answers [true] for the flag: the flag is not found. *)
Lemma C1_witness :
  let p := NewProvider (table_client {[ "bool-flag" := ABool true ]}) in
  translateFeatureFlagPayload sample_context "bool-flag"
  = Returned (sample_payload "bool-flag", None)
  /\ GetFeatureFlag (client p) (sample_payload "bool-flag") (backend fresh_world)
     = ((ABool true, None), 1%nat)
  /\ BooleanEvaluation (H := sample_library) p "bool-flag" true sample_context fresh_world
     = (Returned (detail true (Some FlagNotFoundCode)
                    (dquote +:+ "bool-flag" +:+ dquote +:+ " not found") DefaultReason),
        after_call fresh_world (sample_payload "bool-flag") 1%nat).
Proof.
  intros p.
  assert (Hctx : translateFeatureFlagPayload sample_context "bool-flag"
                 = Returned (sample_payload "bool-flag", None))
    by (vm_compute; reflexivity).
  assert (Hreply : GetFeatureFlag (client p) (sample_payload "bool-flag")
                     (backend fresh_world) = ((ABool true, None), 1%nat))
    by (vm_compute; reflexivity).
  split; [exact Hctx|split; [exact Hreply|]].
  destruct (C1_boolean_reply_is_not_found (H := sample_library) p fresh_world
              "bool-flag" sample_context _ true _ Hctx Hreply)
    as (_ & Hb & _ & _ & _ & _ & Hmsg).
  rewrite Hb, Hmsg by reflexivity. reflexivity.
Defined.

(** The empty context has no targeting key. *)
Lemma C2_witness :
  let p := NewProvider (table_client ∅) in
  (∅ : gmap string any) !! DistinctIDContextKey = None
  /\ BooleanEvaluation (H := sample_library) p "flag" true ∅ fresh_world
     = (Returned (detail true (Some TargetingKeyMissingCode)
                    "missing target key in evaluation context" ErrorReason),
        fresh_world)
  /\ IntEvaluation (H := sample_library) p "flag" 10 ∅ fresh_world
     = (Returned (detail 10 (Some GeneralCode)
                    "missing target key in evaluation context" ErrorReason),
        fresh_world).
Proof.
  intros p.
  assert (Hkey : (∅ : gmap string any) !! DistinctIDContextKey = None)
    by reflexivity.
  destruct (C2_missing_targeting_key (H := sample_library) p fresh_world "flag" ∅ Hkey)
    as (Hb & Hi & _).
  split; [exact Hkey|split; [apply Hb|apply Hi]].
Defined.

(** The flag values of provider_test.go that do not parse. *)
Lemma C3_witness :
  let p := NewProvider (table_client {[ "int-flag" := AString "invalid int" ]}) in
  translateFeatureFlagPayload sample_context "int-flag"
  = Returned (sample_payload "int-flag", None)
  /\ GetFeatureFlag (client p) (sample_payload "int-flag") (backend fresh_world)
     = ((AString "invalid int", None), 1%nat)
  /\ snd (strconv.ParseInt "invalid int" 10) <> None
  /\ IntEvaluation (H := sample_library) p "int-flag" 10 sample_context fresh_world
     = (Returned (detail 10 (Some TypeMismatchCode)
                    (dquote +:+ "invalid int" +:+ dquote +:+ " is not a int")
                    ErrorReason),
        after_call fresh_world (sample_payload "int-flag") 1%nat).
Proof.
  intros p.
  assert (Hctx : translateFeatureFlagPayload sample_context "int-flag"
                 = Returned (sample_payload "int-flag", None))
    by (vm_compute; reflexivity).
  assert (Hreply : GetFeatureFlag (client p) (sample_payload "int-flag")
                     (backend fresh_world) = ((AString "invalid int", None), 1%nat))
    by (vm_compute; reflexivity).
  assert (Herr : snd (strconv.ParseInt "invalid int" 10) <> None)
    by (vm_compute; discriminate).
  split; [exact Hctx|split; [exact Hreply|split; [exact Herr|]]].
  destruct (C3_unparsable_value (H := sample_library) p fresh_world "int-flag"
              sample_context _ "invalid int" _ Hctx Hreply)
    as (_ & Hi & _ & Hq).
  rewrite (Hi 10 Herr), Hq by reflexivity. rewrite !append_assoc. reflexivity.
Defined.

(** C3 as it is stated fails on a value with a double quote inside: the
    message is not that value between double quotes, because [%q] escapes
    the inner quote with a backslash. *)
Lemma C3_counterexample_quote_inside :
  let p := NewProvider (table_client {[ "flag" := AString quote_inside ]}) in
  let msg := dquote +:+ "a" +:+ backslash +:+ dquote +:+ "b" +:+ dquote
             +:+ " is not a boolean" in
  snd (strconv.ParseBool quote_inside) <> None
  /\ fst (BooleanEvaluation (H := sample_library) p "flag" false sample_context
            fresh_world)
     = Returned (detail false (Some TypeMismatchCode) msg ErrorReason)
  /\ msg <> dquote +:+ quote_inside +:+ dquote +:+ " is not a boolean".
Proof.
  intros p msg. split; [vm_compute; discriminate|].
  split; [vm_compute; reflexivity|vm_compute; discriminate].
Qed.

(** The flag values of provider_test.go that parse. *)
Lemma C4_witness :
  let p := NewProvider (table_client {[ "float-flag" := AString "0.55" ]}) in
  translateFeatureFlagPayload sample_context "float-flag"
  = Returned (sample_payload "float-flag", None)
  /\ GetFeatureFlag (client p) (sample_payload "float-flag") (backend fresh_world)
     = ((AString "0.55", None), 1%nat)
  /\ strconv.ParseFloat "0.55" = (S754_finite false 4953959590107546 (-53), None)
  /\ FloatEvaluation (H := sample_library) p "float-flag" (S754_zero false)
       sample_context fresh_world
     = (Returned (detail (S754_finite false 4953959590107546 (-53)) None ""
                    TargetingMatchReason),
        after_call fresh_world (sample_payload "float-flag") 1%nat)
  /\ StringEvaluation (H := sample_library) p "float-flag" "test"
       sample_context fresh_world
     = (Returned (detail "0.55" None "" TargetingMatchReason),
        after_call fresh_world (sample_payload "float-flag") 1%nat).
Proof.
  intros p.
  assert (Hctx : translateFeatureFlagPayload sample_context "float-flag"
                 = Returned (sample_payload "float-flag", None))
    by (vm_compute; reflexivity).
  assert (Hreply : GetFeatureFlag (client p) (sample_payload "float-flag")
                     (backend fresh_world) = ((AString "0.55", None), 1%nat))
    by (vm_compute; reflexivity).
  assert (Hparse : strconv.ParseFloat "0.55"
                   = (S754_finite false 4953959590107546 (-53), None))
    by (vm_compute; reflexivity).
  split; [exact Hctx|split; [exact Hreply|split; [exact Hparse|]]].
  destruct (C4_well_formed_value (H := sample_library) p fresh_world "float-flag"
              sample_context _ "0.55" _ Hctx Hreply)
    as (_ & _ & Hf & Hs & _).
  split; [exact (Hf _ _ Hparse)|apply Hs].
Defined.

(** The object test of provider_test.go. *)
Lemma C5_witness :
  let p := NewProvider (table_client {[ "object-flag" := AString jane_doe_json ]}) in
  translateFeatureFlagPayload sample_context "object-flag"
  = Returned (sample_payload "object-flag", None)
  /\ GetFeatureFlag (client p) (sample_payload "object-flag") (backend fresh_world)
     = ((AString jane_doe_json, None), 1%nat)
  /\ ObjectEvaluation (H := sample_library) p "object-flag" ANil
       sample_context fresh_world
     = (Returned (detail (AMap (Some jane_doe_map)) None "" TargetingMatchReason),
        after_call fresh_world (sample_payload "object-flag") 1%nat).
Proof.
  intros p.
  assert (Hctx : translateFeatureFlagPayload sample_context "object-flag"
                 = Returned (sample_payload "object-flag", None))
    by (vm_compute; reflexivity).
  assert (Hreply : GetFeatureFlag (client p) (sample_payload "object-flag")
                     (backend fresh_world) = ((AString jane_doe_json, None), 1%nat))
    by (vm_compute; reflexivity).
  split; [exact Hctx|split; [exact Hreply|]].
  destruct (C5_object_decoding (H := sample_library) p fresh_world "object-flag"
              sample_context _ jane_doe_json _ ANil Hctx Hreply)
    as (_ & _ & Hjane & _).
  exact (Hjane eq_refl).
Defined.

(** A backend that answers with the number 1: the scalar entry points
    report a type mismatch, [ObjectEvaluation] panics. *)
Lemma C6_witness :
  let p := NewProvider (table_client {[ "flag" := AInt 1 ]}) in
  translateFeatureFlagPayload sample_context "flag"
  = Returned (sample_payload "flag", None)
  /\ GetFeatureFlag (client p) (sample_payload "flag") (backend fresh_world)
     = ((AInt 1, None), 1%nat)
  /\ StringEvaluation (H := sample_library) p "flag" "test" sample_context fresh_world
     = (Returned (detail "test" (Some TypeMismatchCode) "1 is not a string"
                    ErrorReason),
        after_call fresh_world (sample_payload "flag") 1%nat)
  /\ ObjectEvaluation (H := sample_library) p "flag" ANil sample_context fresh_world
     = (Panicked (TypeAssertionError (AInt 1) "string"),
        after_call fresh_world (sample_payload "flag") 1%nat).
Proof.
  intros p.
  assert (Hctx : translateFeatureFlagPayload sample_context "flag"
                 = Returned (sample_payload "flag", None))
    by (vm_compute; reflexivity).
  assert (Hreply : GetFeatureFlag (client p) (sample_payload "flag")
                     (backend fresh_world) = ((AInt 1, None), 1%nat))
    by (vm_compute; reflexivity).
  split; [exact Hctx|split; [exact Hreply|]].
  destruct (C6_non_string_reply (H := sample_library) p fresh_world "flag"
              sample_context _ (AInt 1) _ Hctx Hreply eq_refl eq_refl)
    as (_ & _ & _ & _ & Hs & Ho).
  split; [apply Hs|apply Ho].
Defined.

(** Groups given as a plain map are not of the type [posthog.Groups]. *)
Lemma C7_witness :
  let p := NewProvider (table_client ∅) in
  plain_map_groups_context !! DistinctIDContextKey = Some (AString "12345")
  /\ groups_well_typed plain_map_groups_context
     && properties_well_typed plain_map_groups_context = false
  /\ FloatEvaluation (H := sample_library) p "flag" (S754_zero false)
       plain_map_groups_context fresh_world
     = (Returned (detail (S754_zero false) (Some GeneralCode)
                    "invalid groups in evaluation context" ErrorReason),
        fresh_world)
  /\ groups_well_typed full_context && properties_well_typed full_context = true
  /\ translateFeatureFlagPayload full_context "flag"
     = Returned ({| posthog.Key := "flag";
                   posthog.DistinctId := "12345";
                   posthog.Groups := Some acme_groups;
                   posthog.PersonProperties := PersonProperties pro_properties;
                   posthog.GroupProperties := GroupProperties pro_properties |},
                 None).
Proof.
  intros p.
  assert (Hkey : plain_map_groups_context !! DistinctIDContextKey
                 = Some (AString "12345")) by (vm_compute; reflexivity).
  assert (Hbad : groups_well_typed plain_map_groups_context
                 && properties_well_typed plain_map_groups_context = false)
    by (vm_compute; reflexivity).
  assert (Hkey' : full_context !! DistinctIDContextKey = Some (AString "12345"))
    by (vm_compute; reflexivity).
  assert (Hok : groups_well_typed full_context
                && properties_well_typed full_context = true)
    by (vm_compute; reflexivity).
  split; [exact Hkey|split; [exact Hbad|]].
  destruct (C7_groups_and_properties (H := sample_library) p fresh_world "flag"
              plain_map_groups_context _ Hkey) as (Hfail & _).
  destruct (Hfail Hbad) as (_ & _ & _ & Hf & _).
  split; [apply Hf|split; [exact Hok|]].
  destruct (C7_groups_and_properties (H := sample_library) p fresh_world "flag"
              full_context _ Hkey') as (_ & Hsucc).
  rewrite (Hsucc Hok "12345" eq_refl). vm_compute. reflexivity.
Defined.

(** C7 as it is stated fails on a context whose targeting key is a number:
    groups and properties are absent, and yet mapping does not succeed. It
    panics, and so does the entry point. *)
Lemma C7_counterexample_numeric_key :
  let p := NewProvider (table_client ∅) in
  numeric_key_context !! DistinctIDContextKey = Some (AInt 5)
  /\ numeric_key_context !! GroupsContextKey = None
  /\ numeric_key_context !! PropertiesContextKey = None
  /\ translateFeatureFlagPayload numeric_key_context "flag"
     = Panicked (TypeAssertionError (AInt 5) "string")
  /\ BooleanEvaluation (H := sample_library) p "flag" false numeric_key_context
       fresh_world
     = (Panicked (TypeAssertionError (AInt 5) "string"), fresh_world).
Proof.
  intros p. repeat split; vm_compute; reflexivity.
Qed.

(** A backend that cannot be reached. *)
Lemma C8_witness :
  let p := NewProvider (failing_client "connection refused") in
  translateFeatureFlagPayload sample_context "flag"
  = Returned (sample_payload "flag", None)
  /\ GetFeatureFlag (client p) (sample_payload "flag") (backend fresh_world)
     = ((ANil, Some (ClientError "connection refused")), 1%nat)
  /\ IntEvaluation (H := sample_library) p "flag" 10 sample_context fresh_world
     = (Returned (detail 10 (Some GeneralCode) "connection refused" ErrorReason),
        {| backend := 1%nat; calls := [sample_payload "flag"] |}).
Proof.
  intros p.
  assert (Hctx : translateFeatureFlagPayload sample_context "flag"
                 = Returned (sample_payload "flag", None))
    by (vm_compute; reflexivity).
  assert (Hreply : GetFeatureFlag (client p) (sample_payload "flag")
                     (backend fresh_world)
                   = ((ANil, Some (ClientError "connection refused")), 1%nat))
    by (vm_compute; reflexivity).
  split; [exact Hctx|split; [exact Hreply|]].
  destruct (C8_transport_error (H := sample_library) p fresh_world "flag"
              sample_context _ ANil _ _ Hctx Hreply) as (_ & Hi & _).
  apply Hi.
Defined.

(** A flag whose value is a JSON array, and one whose value is [null]. *)
Lemma C10_witness :
  let p := NewProvider (table_client {[ "flag" := AString "[1,2]" ]}) in
  let q := NewProvider (table_client {[ "flag" := AString "null" ]}) in
  translateFeatureFlagPayload sample_context "flag"
  = Returned (sample_payload "flag", None)
  /\ GetFeatureFlag (client p) (sample_payload "flag") (backend fresh_world)
     = ((AString "[1,2]", None), 1%nat)
  /\ json.parse "[1,2]" = Some (json.JArray [json.JNumber [49]; json.JNumber [50]])
  /\ ObjectEvaluation (H := sample_library) p "flag" ANil sample_context fresh_world
     = (Returned (detail ANil (Some TypeMismatchCode) "invalid JSON as flag value"
                    ErrorReason),
        after_call fresh_world (sample_payload "flag") 1%nat)
  /\ ObjectEvaluation (H := sample_library) q "flag" ANil sample_context fresh_world
     = (Returned (detail (AMap None) None "" TargetingMatchReason),
        after_call fresh_world (sample_payload "flag") 1%nat).
Proof.
  intros p q.
  assert (Hctx : translateFeatureFlagPayload sample_context "flag"
                 = Returned (sample_payload "flag", None))
    by (vm_compute; reflexivity).
  assert (Hp : GetFeatureFlag (client p) (sample_payload "flag")
                 (backend fresh_world) = ((AString "[1,2]", None), 1%nat))
    by (vm_compute; reflexivity).
  assert (Hq : GetFeatureFlag (client q) (sample_payload "flag")
                 (backend fresh_world) = ((AString "null", None), 1%nat))
    by (vm_compute; reflexivity).
  assert (Harr : json.parse "[1,2]"
                 = Some (json.JArray [json.JNumber [49]; json.JNumber [50]]))
    by (vm_compute; reflexivity).
  assert (Hnull : json.parse "null" = Some json.JNull)
    by (vm_compute; reflexivity).
  split; [exact Hctx|split; [exact Hp|split; [exact Harr|]]].
  split.
  - exact (proj1 (C10_json_that_is_no_object (H := sample_library) p fresh_world
                    "flag" sample_context _ "[1,2]" _ _ ANil Hctx Hp Harr eq_refl)).
  - exact (proj1 (C10_json_that_is_no_object (H := sample_library) q fresh_world
                    "flag" sample_context _ "null" _ _ ANil Hctx Hq Hnull eq_refl)).
Defined.

(** The tests of provider_test.go for a flag that does not exist answer
    with the string [false] and expect [FlagNotFound]. The provider takes
    only a boolean for the sentinel: the string [false] is a found value,
    which [StringEvaluation] returns and [IntEvaluation] cannot parse. *)
Remark string_false_is_a_found_value :
  let p := NewProvider (table_client {[ "flag" := AString "false" ]}) in
  fst (StringEvaluation (H := sample_library) p "flag" "test" sample_context
         fresh_world)
  = Returned (detail "false" None "" TargetingMatchReason)
  /\ fst (IntEvaluation (H := sample_library) p "flag" 10 sample_context fresh_world)
     = Returned (detail 10 (Some TypeMismatchCode)
                   (dquote +:+ "false" +:+ dquote +:+ " is not a int") ErrorReason).
Proof. intros p. split; vm_compute; reflexivity. Qed.

(* ===================================================================== *)
(** * Further properties: context mapping *)
(* ===================================================================== *)

(** Case analysis on the three keys [translateFeatureFlagPayload] reads. *)
Ltac split_context evalCtx :=
  unfold translateFeatureFlagPayload, mapped_payload, groups_well_typed,
    properties_well_typed in *;
  destruct (evalCtx !! DistinctIDContextKey) as [[]|];
  destruct (evalCtx !! GroupsContextKey) as [[]|];
  destruct (evalCtx !! PropertiesContextKey) as [[]|].

(** X1. Context mapping succeeds exactly when the targeting key is present
    and a string and the values under [groups] and [properties] are absent
    or of the backend's types; the payload is then made of the flag name,
    the targeting key, the groups and the two property maps. *)
Theorem translate_succeeds_iff (evalCtx : gmap string any) (flag : string)
    (payload : posthog.FeatureFlagPayload) :
  translateFeatureFlagPayload evalCtx flag = Returned (payload, None)
  <-> exists id,
        evalCtx !! DistinctIDContextKey = Some (AString id)
        /\ groups_well_typed evalCtx = true
        /\ properties_well_typed evalCtx = true
        /\ payload = mapped_payload evalCtx flag id.
Proof.
  split.
  - intros Ht. split_context evalCtx; simplify_eq; eexists; repeat split.
  - intros (id & Hk & Hg & Hp & ->). split_context evalCtx; simplify_eq; reflexivity.
Qed.

(** X2. When context mapping returns an error, the payload is the zero
    payload and the error tells the first of three conditions that failed:
    [errMissingTargetKey] exactly when the targeting key is absent,
    [errInvalidGroups] exactly when it is present and the groups are ill
    typed, [errInvalidProperties] exactly when it is present, the groups are
    well typed and the properties are ill typed. The error is never one of
    the client's. *)
Theorem translate_failure (evalCtx : gmap string any) (flag : string)
    (payload : posthog.FeatureFlagPayload) (e : error) :
  translateFeatureFlagPayload evalCtx flag = Returned (payload, Some e) ->
  payload = posthog.zero_FeatureFlagPayload
  /\ (e = errMissingTargetKey <-> evalCtx !! DistinctIDContextKey = None)
  /\ (e = errInvalidGroups
      <-> is_Some (evalCtx !! DistinctIDContextKey)
          /\ groups_well_typed evalCtx = false)
  /\ (e = errInvalidProperties
      <-> is_Some (evalCtx !! DistinctIDContextKey)
          /\ groups_well_typed evalCtx = true
          /\ properties_well_typed evalCtx = false)
  /\ (forall text, e <> ClientError text).
Proof.
  intros Ht.
  split_context evalCtx; simplify_eq;
    (split; [reflexivity|]);
    repeat split; try discriminate; try reflexivity; try (eexists; reflexivity);
    try (intros [? ?]; discriminate);
    try (intros (? & ? & ?); discriminate);
    try (intros [[? ?] ?]; discriminate);
    try (intros ([? ?] & ? & ?); discriminate);
    try (intros ? ?; discriminate).
Qed.

(** X3. Context mapping panics exactly when the targeting key is present
    and not a string while groups and properties are well typed or absent:
    ill-typed groups or properties are reported first, as errors. *)
Theorem translate_panics_iff (evalCtx : gmap string any) (flag : string) (pn : panic) :
  translateFeatureFlagPayload evalCtx flag = Panicked pn
  <-> exists v,
        evalCtx !! DistinctIDContextKey = Some v
        /\ is_string v = false
        /\ groups_well_typed evalCtx = true
        /\ properties_well_typed evalCtx = true
        /\ pn = TypeAssertionError v "string".
Proof.
  split.
  - intros Ht. split_context evalCtx; simplify_eq; eexists; repeat split.
  - intros (v & Hk & Hs & Hg & Hp & ->).
    split_context evalCtx; simplify_eq; try discriminate; reflexivity.
Qed.

Lemma translate_insert_unread (evalCtx : gmap string any) (flag k : string) (v : any) :
  unread_key k ->
  translateFeatureFlagPayload (<[k := v]> evalCtx) flag
  = translateFeatureFlagPayload evalCtx flag.
Proof.
  intros (H1 & H2 & H3). unfold translateFeatureFlagPayload.
  rewrite !lookup_insert_ne by done. reflexivity.
Qed.

Lemma translate_delete_unread (evalCtx : gmap string any) (flag k : string) :
  unread_key k ->
  translateFeatureFlagPayload (delete k evalCtx) flag
  = translateFeatureFlagPayload evalCtx flag.
Proof.
  intros (H1 & H2 & H3). unfold translateFeatureFlagPayload.
  rewrite !lookup_delete_ne by done. reflexivity.
Qed.

Section UnreadKeys.
Context `{GoLibrary}.
Context {S : Type}.

(** X4. The provider reads three keys of the evaluation context and no
  other: adding, changing or removing any other attribute changes neither
  the payload sent to the backend nor the result of any entry point. *)
Theorem unread_keys_are_ignored (p : Provider S) (flag k : string) (v : any)
  (evalCtx : gmap string any) :
unread_key k ->
let added := <[k := v]> evalCtx in
let removed := delete k evalCtx in
translateFeatureFlagPayload added flag = translateFeatureFlagPayload evalCtx flag
/\ translateFeatureFlagPayload removed flag = translateFeatureFlagPayload evalCtx flag
/\ (forall d, BooleanEvaluation p flag d added = BooleanEvaluation p flag d evalCtx
              /\ BooleanEvaluation p flag d removed = BooleanEvaluation p flag d evalCtx)
/\ (forall d, IntEvaluation p flag d added = IntEvaluation p flag d evalCtx
              /\ IntEvaluation p flag d removed = IntEvaluation p flag d evalCtx)
/\ (forall d, FloatEvaluation p flag d added = FloatEvaluation p flag d evalCtx
              /\ FloatEvaluation p flag d removed = FloatEvaluation p flag d evalCtx)
/\ (forall d, StringEvaluation p flag d added = StringEvaluation p flag d evalCtx
              /\ StringEvaluation p flag d removed = StringEvaluation p flag d evalCtx)
/\ (forall d, ObjectEvaluation p flag d added = ObjectEvaluation p flag d evalCtx
              /\ ObjectEvaluation p flag d removed = ObjectEvaluation p flag d evalCtx).
Proof.
intros Hk added removed.
pose proof (translate_insert_unread evalCtx flag k v Hk) as Ha.
pose proof (translate_delete_unread evalCtx flag k Hk) as Hr.
repeat split; try assumption; unfold_entry; subst added removed;
  rewrite ?Ha, ?Hr; reflexivity.
Qed.

End UnreadKeys.

(* ===================================================================== *)
(** * Further properties: the entry points on every input *)
(* ===================================================================== *)

(** Runs an entry point on an arbitrary input: case analysis on the result
    of context mapping, the reply of the backend and the result of value
    coercion. *)
Ltac all_cases p evalCtx flag w :=
  unfold_entry; unfold world_after;
  destruct (translateFeatureFlagPayload evalCtx flag) as [[? [[]|]]|?];
  try reflexivity;
  try (let Hr := fresh "Hr" in
       let res := fresh "res" in
       match goal with
       | |- context [getFeatureFlag p ?pl w] =>
         destruct (GetFeatureFlag (client p) pl (backend w))
           as [[res [?|]] ?] eqn:Hr
       end;
       rewrite (getFeatureFlag_run _ _ _ _ _ Hr); cbn [fst snd negb];
       try reflexivity;
       destruct res; cbn [is_bool negb parseFlagValue]; try reflexivity;
       repeat match goal with
              | |- context [strconv.ParseBool ?s] =>
                destruct (strconv.ParseBool s) as [? [?|]]
              | |- context [strconv.ParseInt ?s 10] =>
                destruct (strconv.ParseInt s 10) as [? [?|]]
              | |- context [strconv.ParseFloat ?s] =>
                destruct (strconv.ParseFloat s) as [? [?|]]
              | |- context [json.Unmarshal ?s] =>
                destruct (json.Unmarshal s) as [? [?|]]
              end;
       try reflexivity).

Section EveryInput.
Context `{GoLibrary}.
Context {S : Type}.
Implicit Types (p : Provider S) (w : World S) (flag : string)
(evalCtx : gmap string any).

(** The world each entry point ends in. *)
Lemma entry_points_world p w flag evalCtx :
let w' := world_after p flag evalCtx w in
(forall d, snd (BooleanEvaluation p flag d evalCtx w) = w')
/\ (forall d, snd (IntEvaluation p flag d evalCtx w) = w')
/\ (forall d, snd (FloatEvaluation p flag d evalCtx w) = w')
/\ (forall d, snd (StringEvaluation p flag d evalCtx w) = w')
/\ (forall d, snd (ObjectEvaluation p flag d evalCtx w) = w').
Proof.
intros w'. subst w'. repeat split; intros d; all_cases p evalCtx flag w.
Qed.

(** X5. On every input, whatever the outcome, an evaluation calls the
  backend once when the context maps to a payload, with that payload, and
  not at all otherwise: the five entry points end in the same world, and
  the log of calls grows by one call at most, a call for the flag
  evaluated. *)
Theorem backend_called_at_most_once p w flag evalCtx :
let w' := world_after p flag evalCtx w in
(forall d, snd (BooleanEvaluation p flag d evalCtx w) = w')
/\ (forall d, snd (IntEvaluation p flag d evalCtx w) = w')
/\ (forall d, snd (FloatEvaluation p flag d evalCtx w) = w')
/\ (forall d, snd (StringEvaluation p flag d evalCtx w) = w')
/\ (forall d, snd (ObjectEvaluation p flag d evalCtx w) = w')
/\ (calls w' = calls w
    \/ exists payload, calls w' = (calls w ++ [payload])%list
                       /\ posthog.Key payload = flag).
Proof.
intros w'.
destruct (entry_points_world p w flag evalCtx) as (Hb & Hi & Hf & Hs & Ho).
repeat split; try assumption.
subst w'. unfold world_after.
destruct (translateFeatureFlagPayload evalCtx flag) as [[payload [e|]]|pn] eqn:Ht;
  try (left; reflexivity).
right. exists payload. split; [reflexivity|].
unfold translateFeatureFlagPayload in Ht.
repeat case_match; simplify_eq; reflexivity.
Qed.

(** X7. On every input an entry point that returns, returns a result of
  one of five shapes: a value with the reason [TargetingMatch] and no
  error; or the caller's default with [FlagNotFound] and the reason
  [Default]; or the caller's default with [TypeMismatch] or [General]
  and the reason [Error]; [BooleanEvaluation] alone may also return the
  default with [TargetingKeyMissing] and the reason [Error]. No other
  error code is produced, and a value other than the default never comes
  with an error. *)
Theorem results_are_well_formed p w flag evalCtx :
(forall d, well_formed_outcome true d (fst (BooleanEvaluation p flag d evalCtx w)))
/\ (forall d, well_formed_outcome false d (fst (IntEvaluation p flag d evalCtx w)))
/\ (forall d, well_formed_outcome false d (fst (FloatEvaluation p flag d evalCtx w)))
/\ (forall d, well_formed_outcome false d (fst (StringEvaluation p flag d evalCtx w)))
/\ (forall d, well_formed_outcome false d (fst (ObjectEvaluation p flag d evalCtx w))).
Proof.
repeat split; intros d; all_cases p evalCtx flag w;
  cbn; repeat split; exact I.
Qed.

(** X8. The four scalar entry points panic exactly when context mapping
  panics: whatever the backend replies, they return. [ObjectEvaluation]
  panics in one more case: the context maps to a payload and the backend
  replies, without error, with a value that is neither a boolean nor a
  string. *)
Theorem panics_exactly_when p w flag evalCtx (pn : panic) :
(forall d, fst (BooleanEvaluation p flag d evalCtx w) = Panicked pn
           <-> translateFeatureFlagPayload evalCtx flag = Panicked pn)
/\ (forall d, fst (IntEvaluation p flag d evalCtx w) = Panicked pn
              <-> translateFeatureFlagPayload evalCtx flag = Panicked pn)
/\ (forall d, fst (FloatEvaluation p flag d evalCtx w) = Panicked pn
              <-> translateFeatureFlagPayload evalCtx flag = Panicked pn)
/\ (forall d, fst (StringEvaluation p flag d evalCtx w) = Panicked pn
              <-> translateFeatureFlagPayload evalCtx flag = Panicked pn)
/\ (forall d, fst (ObjectEvaluation p flag d evalCtx w) = Panicked pn
              <-> translateFeatureFlagPayload evalCtx flag = Panicked pn
                  \/ exists payload v,
                       translateFeatureFlagPayload evalCtx flag
                       = Returned (payload, None)
                       /\ fst (GetFeatureFlag (client p) payload (backend w))
                          = (v, None)
                       /\ is_bool v = false /\ is_string v = false
                       /\ pn = TypeAssertionError v "string").
Proof.
split; [|split; [|split; [|split]]]; intros d.
1-4: all_cases p evalCtx flag w; cbn [fst]; split; intros Hp; simplify_eq;
  reflexivity.
all_cases p evalCtx flag w; cbn [fst]; split.
all: try (intros [Hp|(pl & v & Hp & Hv & Hb & Hs & Hpn)]; simplify_eq;
          try (rewrite Hr in Hv; cbn in Hv; simplify_eq);
          try discriminate; reflexivity).
all: try (intros Hp; simplify_eq; fail).
all: try (intros Hp; simplify_eq; left; reflexivity).
all: intros Hp; simplify_eq; right; eexists _, _; rewrite Hr;
  repeat split; reflexivity.
Qed.

(** X9. The default value takes no part in the lookup: for two defaults an
  entry point ends in the same world, with the same panic or with the same
  error and reason; the results differ in the value of a failure only,
  which is the default given, and a value that was found is the same for
  both. *)
Theorem default_is_passed_through p w flag evalCtx :
(forall d d',
    same_up_to_default d d' (fst (BooleanEvaluation p flag d evalCtx w))
      (fst (BooleanEvaluation p flag d' evalCtx w))
    /\ snd (BooleanEvaluation p flag d evalCtx w)
       = snd (BooleanEvaluation p flag d' evalCtx w))
/\ (forall d d',
       same_up_to_default d d' (fst (IntEvaluation p flag d evalCtx w))
         (fst (IntEvaluation p flag d' evalCtx w))
       /\ snd (IntEvaluation p flag d evalCtx w)
          = snd (IntEvaluation p flag d' evalCtx w))
/\ (forall d d',
       same_up_to_default d d' (fst (FloatEvaluation p flag d evalCtx w))
         (fst (FloatEvaluation p flag d' evalCtx w))
       /\ snd (FloatEvaluation p flag d evalCtx w)
          = snd (FloatEvaluation p flag d' evalCtx w))
/\ (forall d d',
       same_up_to_default d d' (fst (StringEvaluation p flag d evalCtx w))
         (fst (StringEvaluation p flag d' evalCtx w))
       /\ snd (StringEvaluation p flag d evalCtx w)
          = snd (StringEvaluation p flag d' evalCtx w))
/\ (forall d d',
       same_up_to_default d d' (fst (ObjectEvaluation p flag d evalCtx w))
         (fst (ObjectEvaluation p flag d' evalCtx w))
       /\ snd (ObjectEvaluation p flag d evalCtx w)
          = snd (ObjectEvaluation p flag d' evalCtx w)).
Proof.
destruct (entry_points_world p w flag evalCtx) as (Hb & Hi & Hf & Hs & Ho).
split; [|split; [|split; [|split]]]; intros d d';
  (split; [|rewrite ?Hb, ?Hi, ?Hf, ?Hs, ?Ho; reflexivity]).
all: clear Hb Hi Hf Hs Ho; all_cases p evalCtx flag w; cbn; repeat split.
Qed.

(** Runs an entry point in two worlds of a stateless backend. *)
Ltac two_worlds Hst p evalCtx flag w1 w2 :=
unfold_entry;
destruct (translateFeatureFlagPayload evalCtx flag) as [[? [[]|]]|?];
try reflexivity;
match goal with
| |- context [getFeatureFlag p ?pl w1] =>
  let H1 := fresh "H1" in
  let H2 := fresh "H2" in
  let r1 := fresh "r" in
  let r2 := fresh "r" in
  destruct (Hst pl (backend w1) (backend w2)) as [Hfst _];
  destruct (GetFeatureFlag (client p) pl (backend w1)) as [r1 ?] eqn:H1;
  destruct (GetFeatureFlag (client p) pl (backend w2)) as [r2 ?] eqn:H2;
  rewrite (getFeatureFlag_run _ _ _ _ _ H1), (getFeatureFlag_run _ _ _ _ _ H2);
  cbn [fst snd] in *; subst r2; destruct r1 as [[] [?|]];
  cbn [fst snd is_bool negb parseFlagValue]; try reflexivity;
  repeat match goal with
         | |- context [strconv.ParseBool ?s] =>
           destruct (strconv.ParseBool s) as [? [?|]]
         | |- context [strconv.ParseInt ?s 10] =>
           destruct (strconv.ParseInt s 10) as [? [?|]]
         | |- context [strconv.ParseFloat ?s] =>
           destruct (strconv.ParseFloat s) as [? [?|]]
         | |- context [json.Unmarshal ?s] =>
           destruct (json.Unmarshal s) as [? [?|]]
         end;
  reflexivity
end.

Lemma world_after_backend p w flag evalCtx :
stateless (client p) -> backend (world_after p flag evalCtx w) = backend w.
Proof.
intros Hst. unfold world_after.
destruct (translateFeatureFlagPayload evalCtx flag) as [[payload [e|]]|pn];
  try reflexivity.
cbn [after_call backend]. apply (Hst payload (backend w) (backend w)).
Qed.

(** X6. Over a backend whose replies depend on the payload only and whose
  state no call changes, the provider adds no state of its own: the
  outcome of every entry point is the same in every world, whatever was
  evaluated before, and the state of the backend is left as it was. *)
Theorem evaluations_do_not_interfere p flag evalCtx :
stateless (client p) ->
(forall d, world_independent (BooleanEvaluation p flag d evalCtx)
           /\ keeps_backend (BooleanEvaluation p flag d evalCtx))
/\ (forall d, world_independent (IntEvaluation p flag d evalCtx)
              /\ keeps_backend (IntEvaluation p flag d evalCtx))
/\ (forall d, world_independent (FloatEvaluation p flag d evalCtx)
              /\ keeps_backend (FloatEvaluation p flag d evalCtx))
/\ (forall d, world_independent (StringEvaluation p flag d evalCtx)
              /\ keeps_backend (StringEvaluation p flag d evalCtx))
/\ (forall d, world_independent (ObjectEvaluation p flag d evalCtx)
              /\ keeps_backend (ObjectEvaluation p flag d evalCtx)).
Proof.
intros Hst.
assert (Hk : forall w, backend (world_after p flag evalCtx w) = backend w)
  by (intros w; apply world_after_backend, Hst).
repeat split; try (intros w1 w2; two_worlds Hst p evalCtx flag w1 w2);
  intros w;
  destruct (entry_points_world p w flag evalCtx) as (Hb & Hi & Hf & Hs & Ho);
  rewrite ?Hb, ?Hi, ?Hf, ?Hs, ?Ho; apply Hk.
Qed.

(** X10. A failure before value coercion does not depend on the type asked
  for: when [IntEvaluation] fails in context mapping or in the lookup,
  [FloatEvaluation], [StringEvaluation] and [ObjectEvaluation] fail with
  the same error code, message and reason, and [BooleanEvaluation] with
  the same message and reason and the same code, except that it reports a
  missing targeting key as [TargetingKeyMissing] where the others report
  [General]. *)
Theorem failures_before_coercion_agree p w flag evalCtx
  (db : bool) (di : Z) (df : float64) (ds : string) (dobj : any) :
let vb := verdict (fst (BooleanEvaluation p flag db evalCtx w)) in
let vi := verdict (fst (IntEvaluation p flag di evalCtx w)) in
let vf := verdict (fst (FloatEvaluation p flag df evalCtx w)) in
let vs := verdict (fst (StringEvaluation p flag ds evalCtx w)) in
let vo := verdict (fst (ObjectEvaluation p flag dobj evalCtx w)) in
failed_before_coercion vi = true ->
vf = vi /\ vs = vi /\ vo = vi
/\ exists rb ri,
     vb = Returned rb /\ vi = Returned ri
     /\ message (ResolutionError_ rb) = message (ResolutionError_ ri)
     /\ Reason_ rb = Reason_ ri
     /\ (code (ResolutionError_ rb) = code (ResolutionError_ ri)
         \/ (evalCtx !! DistinctIDContextKey = None
             /\ code (ResolutionError_ rb) = Some TargetingKeyMissingCode
             /\ code (ResolutionError_ ri) = Some GeneralCode)).
Proof.
cbv zeta. unfold_entry.
destruct (translateFeatureFlagPayload evalCtx flag) as [[payload [e|]]|pn] eqn:Ht.
- intros _. repeat split.
  destruct e; cbn; eexists _, _; repeat split;
    try (left; reflexivity).
  right. repeat split.
  unfold translateFeatureFlagPayload in Ht. repeat case_match; simplify_eq.
  reflexivity.
- destruct (GetFeatureFlag (client p) payload (backend w))
    as [[res [err|]] s'] eqn:Hr;
    rewrite (getFeatureFlag_run _ _ _ _ _ Hr); cbn [fst snd negb].
  + intros _. repeat split. cbn. eexists _, _; repeat split. left; reflexivity.
  + destruct res; cbn [is_bool negb parseFlagValue];
      try (destruct (strconv.ParseInt _ 10) as [? [?|]]);
      cbn; intros Hf; try discriminate Hf.
    repeat split. eexists _, _; repeat split. left; reflexivity.
- cbn. intros Hf. discriminate Hf.
Qed.

End EveryInput.

(* ===================================================================== *)
(** * Further properties: value coercion *)
(* ===================================================================== *)

(** ** The integer coercion reads decimal literals, and nothing else *)

Lemma digits_val_mono (l : list Z) (acc : Z) :
  all_digits l = true -> 0 <= acc -> acc <= digits_val l acc.
Proof.
  revert acc. induction l as [|c l IH]; intros acc Hd Hacc; simpl; [lia|].
  simpl in Hd. apply andb_true_iff in Hd as [Hc Hl].
  unfold in_range in Hc. specialize (IH (acc * 10 + (c - 48)) Hl). lia.
Qed.

Lemma ParseUint_loop_complete (l : list Z) (acc : Z) :
  all_digits l = true -> 0 <= acc -> digits_val l acc <= strconv.maxUint64 ->
  strconv.ParseUint_loop 10 l acc = (digits_val l acc, None).
Proof.
  revert acc. induction l as [|c l IH]; intros acc Hd Hacc Hmax; [reflexivity|].
  simpl in Hd. apply andb_true_iff in Hd as [Hc Hl].
  cbn [digits_val] in *.
  pose proof (digits_val_mono l (acc * 10 + (c - 48)) Hl) as Hm.
  unfold in_range in Hc.
  replace c with (48 + (c - 48)) at 1 by lia.
  rewrite ParseUint_loop_digit by lia. apply IH; [assumption|lia|assumption].
Qed.

Lemma ParseUint_loop_sound (l : list Z) (acc u : Z) :
  0 <= acc <= strconv.maxUint64 ->
  strconv.ParseUint_loop 10 l acc = (u, None) ->
  all_digits l = true /\ u = digits_val l acc /\ 0 <= u <= strconv.maxUint64.
Proof.
  revert acc. unfold strconv.maxUint64.
  induction l as [|c l IH]; intros acc Hacc Hl.
  - simpl in Hl. simplify_eq. repeat split; lia.
  - cbn [strconv.ParseUint_loop] in Hl.
    unfold strconv.maxUint64, strconv.wrap64 in Hl.
    change (2 ^ 64 - 1) with 18446744073709551615 in *.
    change (18446744073709551615 / 10 + 1) with 1844674407370955162 in Hl.
    change (2 ^ 64) with 18446744073709551616 in Hl.
    destruct (in_range 48 57 c) eqn:Hc.
    + unfold in_range in Hc.
      destruct (Z.leb_spec 10 (c - 48)); [discriminate|].
      destruct (Z.leb_spec 1844674407370955162 acc); [discriminate|].
      rewrite (Z.mod_small (acc * 10)) in Hl by lia.
      destruct (Z.ltb_spec ((acc * 10 + (c - 48)) mod 18446744073709551616)
                  (acc * 10)); [discriminate|].
      destruct (Z.ltb_spec 18446744073709551615
                  ((acc * 10 + (c - 48)) mod 18446744073709551616));
        [discriminate|].
      cbn [orb] in Hl.
      assert (Hsmall : acc * 10 + (c - 48) < 18446744073709551616).
      { destruct (Z.lt_ge_cases (acc * 10 + (c - 48)) 18446744073709551616)
          as [|Hge]; [assumption|exfalso].
        assert (Hw : (acc * 10 + (c - 48)) mod 18446744073709551616
                     = acc * 10 + (c - 48) - 18446744073709551616).
        { replace (acc * 10 + (c - 48))
            with (acc * 10 + (c - 48) - 18446744073709551616
                  + 1 * 18446744073709551616) at 1 by lia.
          rewrite Z.mod_add, Z.mod_small by lia. reflexivity. }
        lia. }
      rewrite Z.mod_small in Hl by lia.
      apply IH in Hl; [|lia]. destruct Hl as (Hd & Hu & Hr).
      cbn [all_digits forallb digits_val]. unfold in_range at 1.
      repeat split; try lia.
      apply andb_true_iff. split; [lia|exact Hd].
    + destruct (in_range 97 122 (lower c)) eqn:Hl'; [|discriminate].
      unfold in_range in Hl'.
      destruct (Z.leb_spec 10 (lower c - 97 + 10)); [discriminate|lia].
Qed.

Lemma ParseUint_loop_range (l : list Z) (acc u : Z) :
  strconv.ParseUint_loop 10 l acc = (u, Some strconv.ErrRange) ->
  u = strconv.maxUint64.
Proof.
  revert acc. induction l as [|c l IH]; intros acc Hl; [discriminate|].
  cbn [strconv.ParseUint_loop] in Hl.
  repeat case_match; simplify_eq; try reflexivity; eapply IH; eassumption.
Qed.

Lemma bytes_of_nil (s : string) : bytes_of s = [] <-> s = "".
Proof. destruct s; simpl; split; intros; congruence. Qed.

Lemma ParseUint_sound (s : string) (u : Z) :
  strconv.ParseUint s 10 = (u, None) ->
  bytes_of s <> [] /\ all_digits (bytes_of s) = true
  /\ u = digits_val (bytes_of s) 0 /\ 0 <= u <= strconv.maxUint64.
Proof.
  unfold strconv.ParseUint. destruct (String.eqb_spec s "") as [->|Hne];
    [discriminate|].
  intros Hl. apply ParseUint_loop_sound in Hl; [|unfold strconv.maxUint64; lia].
  split; [|exact Hl]. intros Hnil. apply bytes_of_nil in Hnil. contradiction.
Qed.

Lemma ParseUint_complete (s : string) :
  bytes_of s <> [] -> all_digits (bytes_of s) = true ->
  digits_val (bytes_of s) 0 <= strconv.maxUint64 ->
  strconv.ParseUint s 10 = (digits_val (bytes_of s) 0, None).
Proof.
  intros Hne Hd Hmax. unfold strconv.ParseUint.
  destruct (String.eqb_spec s "") as [->|_]; [contradiction Hne; reflexivity|].
  apply ParseUint_loop_complete; [assumption|lia|assumption].
Qed.

Lemma ParseUint_range (s : string) (u : Z) :
  strconv.ParseUint s 10 = (u, Some strconv.ErrRange) -> u = strconv.maxUint64.
Proof.
  unfold strconv.ParseUint. destruct (String.eqb s ""); [discriminate|].
  apply ParseUint_loop_range.
Qed.

(** What [ParseInt] makes of the number [ParseUint] read. *)
Lemma ParseInt_checks (neg : bool) (un i : Z) :
  0 <= un <= strconv.maxUint64 ->
  (if negb neg && (2 ^ 63 <=? un) then (2 ^ 63 - 1, Some strconv.ErrRange)
   else if neg && (2 ^ 63 <? un) then (- 2 ^ 63, Some strconv.ErrRange)
   else (if neg then strconv.neg64 (strconv.int64_of_uint64 un)
         else strconv.int64_of_uint64 un, None)) = (i, None)
  <-> i = (if neg then - un else un) /\ int64_range i.
Proof.
  unfold strconv.maxUint64, int64_range, strconv.neg64, strconv.int64_of_uint64,
    strconv.wrap64.
  change (2 ^ 63) with 9223372036854775808.
  change (2 ^ 64) with 18446744073709551616.
  intros Hun. destruct neg; cbn [negb andb].
  - destruct (Z.ltb_spec 9223372036854775808 un).
    + split; [discriminate|]. intros [-> Hr]. lia.
    + destruct (Z.ltb_spec un 9223372036854775808).
      * destruct (Z.eq_dec un 0) as [->|Hnz].
        { change (- 0) with 0. rewrite Z.mod_0_l by lia.
          change (0 <? 9223372036854775808) with true. cbv iota.
          split; [intros Hi; simplify_eq; split; lia|intros [-> _]; reflexivity]. }
        replace (- un) with (18446744073709551616 - un + (-1) * 18446744073709551616)
          by lia.
        rewrite Z.mod_add, Z.mod_small by lia.
        destruct (Z.ltb_spec (18446744073709551616 - un) 9223372036854775808);
          [lia|].
        split; [intros Hi; simplify_eq; split; lia|intros [-> _]; f_equal; lia].
      * assert (Hun' : un = 9223372036854775808) by lia. subst un.
        split; [intros Hi; vm_compute in Hi; simplify_eq; split; lia
               |intros [-> _]; reflexivity].
  - destruct (Z.leb_spec 9223372036854775808 un).
    + split; [discriminate|]. intros [-> Hr]. lia.
    + destruct (Z.ltb_spec un 9223372036854775808); [|lia].
      split; [intros Hi; simplify_eq; split; lia|intros [-> _]; reflexivity].
Qed.

(** [strconv.ParseInt] in base 10 succeeds exactly on the decimal literals
    whose value is an [int64], with that value. *)
Lemma ParseInt_literal (s : string) (i : Z) :
  strconv.ParseInt s 10 = (i, None)
  <-> int_literal (bytes_of s) = Some i /\ int64_range i.
Proof.
  destruct s as [|c0 rest].
  { split; [discriminate|]. intros [Hl _]. discriminate Hl. }
  unfold strconv.ParseInt, int_literal. cbn [bytes_of].
  set (s0 := String c0 rest).
  assert (Hgen : forall (neg : bool) (s' : string),
             match strconv.ParseUint s' 10 with
             | (_, Some strconv.ErrSyntax) => (0, Some strconv.ErrSyntax)
             | (un, _) =>
               if negb neg && (2 ^ 63 <=? un) then (2 ^ 63 - 1, Some strconv.ErrRange)
               else if neg && (2 ^ 63 <? un) then (- 2 ^ 63, Some strconv.ErrRange)
               else (if neg then strconv.neg64 (strconv.int64_of_uint64 un)
                     else strconv.int64_of_uint64 un, None)
             end = (i, None)
             <-> match bytes_of s' with
                 | [] => None
                 | _ :: _ =>
                   if all_digits (bytes_of s')
                   then Some (if neg then - digits_val (bytes_of s') 0
                              else digits_val (bytes_of s') 0)
                   else None
                 end = Some i /\ int64_range i).
  { intros neg s'. split.
    - destruct (strconv.ParseUint s' 10) as [un [[]|]] eqn:Hu; [discriminate| |].
      + apply ParseUint_range in Hu. subst un. unfold strconv.maxUint64.
        destruct neg; cbn; discriminate.
      + apply ParseUint_sound in Hu. destruct Hu as (Hne & Hd & Hv & Hr).
        intros Hc. apply ParseInt_checks in Hc; [|exact Hr].
        destruct Hc as [-> Hi]. split; [|exact Hi].
        destruct (bytes_of s'); [contradiction Hne; reflexivity|].
        rewrite Hd, Hv. reflexivity.
    - intros [Hl Hi]. destruct (bytes_of s') as [|b bs] eqn:Hb; [discriminate|].
      destruct (all_digits (b :: bs)) eqn:Hd; [|discriminate]. simplify_eq.
      pose proof (digits_val_mono (b :: bs) 0 Hd ltac:(lia)) as Hm.
      assert (Hmax : digits_val (bytes_of s') 0 <= strconv.maxUint64).
      { rewrite Hb. unfold int64_range, strconv.maxUint64 in *.
        destruct neg; lia. }
      rewrite Hb in Hmax.
      rewrite ParseUint_complete; rewrite ?Hb; try assumption; try discriminate.
      apply ParseInt_checks; [rewrite ?Hb in *; lia|]. split; [reflexivity|exact Hi]. }
  destruct (byte_val c0 =? 43); [apply (Hgen false rest)|].
  destruct (byte_val c0 =? 45); [apply (Hgen true rest)|].
  apply (Hgen false s0).
Qed.

(** ** The boolean coercion reads twelve literals *)

Lemma ParseBool_true (s : string) :
  strconv.ParseBool s = (true, None) <-> In s true_literals.
Proof.
  unfold strconv.ParseBool, true_literals. cbn [In].
  repeat match goal with
         | |- context [String.eqb s ?l] => destruct (String.eqb_spec s l)
         end; cbn [orb]; split; intros Hs; try discriminate; try reflexivity;
    try (subst s; tauto); intuition congruence.
Qed.

Lemma ParseBool_false (s : string) :
  strconv.ParseBool s = (false, None) <-> In s false_literals.
Proof.
  unfold strconv.ParseBool, false_literals. cbn [In].
  repeat match goal with
         | |- context [String.eqb s ?l] => destruct (String.eqb_spec s l)
         end; cbn [orb]; split; intros Hs; try discriminate; try reflexivity;
    try (subst s; tauto); try (subst s; discriminate); intuition congruence.
Qed.

Section Coercion.
Context `{GoLibrary}.

(** X11. Value coercion succeeds on strings only, and for the four types
  of the entry points only; a failed coercion returns the zero value of
  the type asked for together with an error of the code [TypeMismatch],
  never a partly parsed value. *)
Theorem coercion_fails_closed (T : type_param) (v : any) :
match parseFlagValue T v with
| (x, Some e) => x = zero_value T /\ code e = Some TypeMismatchCode
| (_, None) =>
  is_string v = true
  /\ match T with T_other _ => False | _ => True end
end.
Proof.
destruct v, T; cbn [parseFlagValue is_string];
  repeat match goal with
         | |- context [strconv.ParseBool ?s] =>
           destruct (strconv.ParseBool s) as [? [?|]]
         | |- context [strconv.ParseInt ?s 10] =>
           destruct (strconv.ParseInt s 10) as [? [?|]]
         | |- context [strconv.ParseFloat ?s] =>
           destruct (strconv.ParseFloat s) as [? [?|]]
         end; repeat split.
Qed.

(** X12. The boolean coercion accepts twelve spellings and no other
  string: [1], [t], [T], [TRUE], [true] and [True] give true, [0], [f],
  [F], [FALSE], [false] and [False] give false, and every other string,
  such as [yes], [tRuE] or a literal with a space around it, is a type
  mismatch. *)
Theorem boolean_vocabulary (s : string) :
(parseFlagValue T_bool (AString s) = (true, None) <-> In s true_literals)
/\ (parseFlagValue T_bool (AString s) = (false, None) <-> In s false_literals)
/\ (snd (parseFlagValue T_bool (AString s)) <> None
    <-> ~ In s (true_literals ++ false_literals)).
Proof.
pose proof (ParseBool_true s) as Ht. pose proof (ParseBool_false s) as Hf.
cbn [parseFlagValue]. rewrite in_app_iff.
destruct (strconv.ParseBool s) as [b [e|]]; cbn [snd zero_value].
- split; [|split]; (split; [try discriminate|]).
  + intros Hs. apply Ht in Hs. discriminate.
  + intros Hs. apply Hf in Hs. discriminate.
  + intros _ [Hs|Hs]; [apply Ht in Hs|apply Hf in Hs]; discriminate.
  + intros _. discriminate.
- split; [|split]; split.
  + intros Hs. apply Ht. congruence.
  + intros Hs. apply Ht in Hs. congruence.
  + intros Hs. apply Hf. congruence.
  + intros Hs. apply Hf in Hs. congruence.
  + congruence.
  + intros Hn. exfalso. apply Hn.
    destruct b; [left; apply Ht|right; apply Hf]; reflexivity.
Qed.

(** X13. The integer coercion accepts exactly the decimal literals of the
  [int64] values: an optional sign, [+] or [-], then one or more decimal
  digits and nothing else (no space, no underscore, no base prefix, no
  fraction), denoting a number from -2^63 to 2^63-1; it returns that
  number. Leading zeros are accepted, and a literal out of the range is a
  type mismatch, not a clamped value. *)
Theorem integer_literals (s : string) (i : Z) :
parseFlagValue T_int64 (AString s) = (i, None)
<-> int_literal (bytes_of s) = Some i /\ int64_range i.
Proof.
rewrite <- ParseInt_literal. cbn [parseFlagValue].
destruct (strconv.ParseInt s 10) as [j [e|]]; split; intros Hp;
  try discriminate; simplify_eq; reflexivity.
Qed.

End Coercion.
(* ===================================================================== *)
(** * Further properties: what each result tells about the lookup *)
(* ===================================================================== *)

(** Runs an entry point on an arbitrary input, keeping the equations of the
    case analysis: [Ht] for context mapping, [Hr] for the reply and [Hp]
    for value coercion. *)
Ltac all_cases_eqn p evalCtx flag w Ht Hr Hp :=
  unfold_entry;
  destruct (translateFeatureFlagPayload evalCtx flag) as [[? [?|]]|?] eqn:Ht;
  [ try match goal with
        | |- context [errors_Is ?e ?t] => destruct (errors_Is e t) eqn:?
        end
  | match goal with
      | |- context [getFeatureFlag p ?pl w] =>
        let res := fresh "res" in
        destruct (GetFeatureFlag (client p) pl (backend w))
          as [[res [?|]] ?] eqn:Hr;
        rewrite (getFeatureFlag_run _ _ _ _ _ Hr); cbn [fst snd negb];
        [ | destruct res; cbn [is_bool negb parseFlagValue];
            try match goal with
                | |- context [strconv.ParseBool ?s] =>
                  destruct (strconv.ParseBool s) as [? [?|]] eqn:Hp
                | |- context [strconv.ParseInt ?s 10] =>
                  destruct (strconv.ParseInt s 10) as [? [?|]] eqn:Hp
                | |- context [strconv.ParseFloat ?s] =>
                  destruct (strconv.ParseFloat s) as [? [?|]] eqn:Hp
                | |- context [json.Unmarshal ?s] =>
                  destruct (json.Unmarshal s) as [? [?|]] eqn:Hp
                end ]
      end
    | ]; cbn [fst snd].

(** Uses a hypothesis [replied ...] in a branch of the case analysis. *)
Ltac use_reply Hr :=
  repeat match goal with
         | Hx : exists _, _ |- _ => destruct Hx as [? Hx]
         | Hx : _ /\ _ |- _ => destruct Hx
         end;
  simplify_eq;
  repeat match goal with
         | Hv : fst (GetFeatureFlag _ _ _) = _ |- _ =>
           rewrite Hr in Hv; cbn [fst] in Hv
         end;
  simplify_eq;
  repeat match goal with
         | H1 : ?t = (_, _), H2 : ?t = (_, _) |- _ => rewrite H1 in H2
         end;
  simplify_eq.

Section Verdicts.
Context `{GoLibrary}.
Context {S : Type}.
Implicit Types (p : Provider S) (w : World S) (flag : string)
(evalCtx : gmap string any).

(** X15. An entry point resolves to a value in one case only: the context
  maps to a payload, the backend replies to it with a string and no error,
  and the string parses as the type asked for, to that value. The default
  is never returned as a resolved value unless the reply spells it. *)
Theorem values_come_from_string_replies p w flag evalCtx :
(forall d b,
    resolves_to (fst (BooleanEvaluation p flag d evalCtx w)) b
    <-> exists s, replied p flag evalCtx w (AString s) None
                  /\ strconv.ParseBool s = (b, None))
/\ (forall d i,
       resolves_to (fst (IntEvaluation p flag d evalCtx w)) i
       <-> exists s, replied p flag evalCtx w (AString s) None
                     /\ strconv.ParseInt s 10 = (i, None))
/\ (forall d f,
       resolves_to (fst (FloatEvaluation p flag d evalCtx w)) f
       <-> exists s, replied p flag evalCtx w (AString s) None
                     /\ strconv.ParseFloat s = (f, None))
/\ (forall d s,
       resolves_to (fst (StringEvaluation p flag d evalCtx w)) s
       <-> replied p flag evalCtx w (AString s) None)
/\ (forall d v,
       resolves_to (fst (ObjectEvaluation p flag d evalCtx w)) v
       <-> exists s obj, v = AMap obj
                         /\ replied p flag evalCtx w (AString s) None
                         /\ json.Unmarshal s = (obj, None)).
Proof.
unfold resolves_to, replied.
split; [|split; [|split; [|split]]]; intros d v;
  all_cases_eqn p evalCtx flag w Ht Hr Hp.
all: split; intros Hx.
all: try (use_reply Hr; first [discriminate|reflexivity|congruence]).
all: try discriminate.
all: simplify_eq.
all: repeat eexists; rewrite ?Hr; try eassumption; reflexivity.
Qed.

(** Closes a branch of the case analysis in which the statement reads the
  lookup off the result ([reports] on the left of an equivalence). *)
Ltac read_off Hr Hp :=
split;
[ intros (? & ? & Hc); simplify_eq; cbn in Hc; try discriminate Hc;
  try solve [repeat eexists; rewrite ?Hr; cbn [parseFlagValue snd];
             rewrite ?Hp; try eassumption; try reflexivity;
             try discriminate; congruence]
| intros Hx;
  repeat match goal with
         | Hy : _ \/ _ |- _ => destruct Hy as [Hy|Hy]
         end;
  use_reply Hr; try discriminate;
  try match goal with
      | Hn : snd _ <> None |- _ =>
        cbn [parseFlagValue snd] in Hn; rewrite ?Hp in Hn; cbn [snd] in Hn
      end;
  try congruence;
  try solve [eexists; split; reflexivity] ].

(** X16. An entry point reports [FlagNotFound] in one case only: the
  context maps to a payload and the backend replies to it with a boolean
  and no error. Either boolean does: a reply of [true] is a flag not
  found as well, and no other reply is, not even the string [false]. *)
Theorem not_found_means_boolean_reply p w flag evalCtx :
(forall d, reports (fst (BooleanEvaluation p flag d evalCtx w)) FlagNotFoundCode
           <-> exists b, replied p flag evalCtx w (ABool b) None)
/\ (forall d, reports (fst (IntEvaluation p flag d evalCtx w)) FlagNotFoundCode
              <-> exists b, replied p flag evalCtx w (ABool b) None)
/\ (forall d, reports (fst (FloatEvaluation p flag d evalCtx w)) FlagNotFoundCode
              <-> exists b, replied p flag evalCtx w (ABool b) None)
/\ (forall d, reports (fst (StringEvaluation p flag d evalCtx w)) FlagNotFoundCode
              <-> exists b, replied p flag evalCtx w (ABool b) None)
/\ (forall d, reports (fst (ObjectEvaluation p flag d evalCtx w)) FlagNotFoundCode
              <-> exists b, replied p flag evalCtx w (ABool b) None).
Proof.
unfold reports, replied, mapping_failed.
split; [|split; [|split; [|split]]]; intros d;
  all_cases_eqn p evalCtx flag w Ht Hr Hp; read_off Hr Hp.
Qed.

(** X17. The error code [General] stands for two things that the code
  does not tell apart: the context did not map to a payload, or the
  backend returned an error. [BooleanEvaluation] reports a missing
  targeting key as [TargetingKeyMissing] instead, and that code means
  nothing else. *)
Theorem general_means_mapping_or_backend p w flag evalCtx :
(forall d, reports (fst (BooleanEvaluation p flag d evalCtx w)) GeneralCode
           <-> (exists e, mapping_failed flag evalCtx e
                          /\ e <> errMissingTargetKey)
               \/ exists v e, replied p flag evalCtx w v (Some e))
/\ (forall d, reports (fst (BooleanEvaluation p flag d evalCtx w))
                TargetingKeyMissingCode
              <-> mapping_failed flag evalCtx errMissingTargetKey)
/\ (forall d, reports (fst (IntEvaluation p flag d evalCtx w)) GeneralCode
              <-> (exists e, mapping_failed flag evalCtx e)
                  \/ exists v e, replied p flag evalCtx w v (Some e))
/\ (forall d, reports (fst (FloatEvaluation p flag d evalCtx w)) GeneralCode
              <-> (exists e, mapping_failed flag evalCtx e)
                  \/ exists v e, replied p flag evalCtx w v (Some e))
/\ (forall d, reports (fst (StringEvaluation p flag d evalCtx w)) GeneralCode
              <-> (exists e, mapping_failed flag evalCtx e)
                  \/ exists v e, replied p flag evalCtx w v (Some e))
/\ (forall d, reports (fst (ObjectEvaluation p flag d evalCtx w)) GeneralCode
              <-> (exists e, mapping_failed flag evalCtx e)
                  \/ exists v e, replied p flag evalCtx w v (Some e)).
Proof.
unfold reports, replied, mapping_failed.
split; [|split; [|split; [|split; [|split]]]]; intros d;
  all_cases_eqn p evalCtx flag w Ht Hr Hp; read_off Hr Hp.
all: try match goal with
         | Hb : errors_Is ?x _ = _ |- _ =>
           destruct x; try discriminate Hb; try congruence
         end.
all: try solve [eexists; reflexivity].
all: try solve [left; eexists; split; [eexists; reflexivity|discriminate]].
all: try solve [left; repeat eexists].
all: right; repeat eexists; rewrite Hr; reflexivity.
Qed.

(** X18. An entry point reports [TypeMismatch] in one case only: the
  context maps to a payload and the backend replies to it, without error,
  with a value that is no boolean and that the coercion to the type asked
  for rejects; for [ObjectEvaluation], with a string that does not decode
  into a map. *)
Theorem type_mismatch_means_rejected_reply p w flag evalCtx :
(forall d, reports (fst (BooleanEvaluation p flag d evalCtx w)) TypeMismatchCode
           <-> exists v, replied p flag evalCtx w v None /\ is_bool v = false
                         /\ snd (parseFlagValue T_bool v) <> None)
/\ (forall d, reports (fst (IntEvaluation p flag d evalCtx w)) TypeMismatchCode
              <-> exists v, replied p flag evalCtx w v None /\ is_bool v = false
                            /\ snd (parseFlagValue T_int64 v) <> None)
/\ (forall d, reports (fst (FloatEvaluation p flag d evalCtx w)) TypeMismatchCode
              <-> exists v, replied p flag evalCtx w v None /\ is_bool v = false
                            /\ snd (parseFlagValue T_float64 v) <> None)
/\ (forall d, reports (fst (StringEvaluation p flag d evalCtx w)) TypeMismatchCode
              <-> exists v, replied p flag evalCtx w v None /\ is_bool v = false
                            /\ is_string v = false)
/\ (forall d, reports (fst (ObjectEvaluation p flag d evalCtx w)) TypeMismatchCode
              <-> exists s, replied p flag evalCtx w (AString s) None
                            /\ snd (json.Unmarshal s) <> None).
Proof.
unfold reports, replied, mapping_failed.
split; [|split; [|split; [|split]]]; intros d;
  all_cases_eqn p evalCtx flag w Ht Hr Hp; read_off Hr Hp.
all: eexists; split; [eexists; split; [reflexivity|rewrite Hr; reflexivity]|];
  split; [reflexivity|]; cbn [parseFlagValue]; rewrite Hp; discriminate.
Qed.

End Verdicts.
(* ===================================================================== *)
(** * Further properties: round trip, and the properties at sample inputs *)
(* ===================================================================== *)

Section FormattedReplies.
Context `{GoLibrary}.
Context {S : Type}.
Implicit Types (p : Provider S) (w : World S) (flag : string)
(evalCtx : gmap string any).

(** X14. Integers survive the trip through the backend: when the backend
  replies with the decimal text of an [int64], as [strconv.FormatInt]
  writes it, [IntEvaluation] returns that number, for the smallest and
  the largest [int64] as for any other, with the reason [TargetingMatch]
  and no error, after one call of the backend. *)
Theorem formatted_integers_round_trip p w flag evalCtx
  (payload : posthog.FeatureFlagPayload) (n : Z) (s' : S) :
int64_range n ->
translateFeatureFlagPayload evalCtx flag = Returned (payload, None) ->
GetFeatureFlag (client p) payload (backend w)
= ((AString (strconv.FormatInt n), None), s') ->
forall d,
  IntEvaluation p flag d evalCtx w
  = (Returned (detail n None "" TargetingMatchReason), after_call w payload s').
Proof.
intros Hn Hctx Hreply d. run_entry Hctx Hreply. cbn [fst snd is_bool negb].
rewrite (parseFlagValue_FormatInt n Hn). reflexivity.
Qed.

End FormattedReplies.

(** Groups given as a plain map are reported as invalid groups. *)
Lemma translate_failure_witness :
  translateFeatureFlagPayload plain_map_groups_context "flag"
  = Returned (posthog.zero_FeatureFlagPayload, Some errInvalidGroups)
  /\ is_Some (plain_map_groups_context !! DistinctIDContextKey)
  /\ groups_well_typed plain_map_groups_context = false.
Proof.
  assert (Ht : translateFeatureFlagPayload plain_map_groups_context "flag"
               = Returned (posthog.zero_FeatureFlagPayload, Some errInvalidGroups))
    by (vm_compute; reflexivity).
  split; [exact Ht|].
  destruct (translate_failure plain_map_groups_context "flag" _ _ Ht)
    as (_ & _ & Hg & _).
  apply Hg. reflexivity.
Defined.

(** An attribute [country] changes nothing. *)
Lemma unread_keys_are_ignored_witness :
  let p := NewProvider (table_client {[ "int-flag" := AString "42" ]}) in
  unread_key "country"
  /\ IntEvaluation (H := sample_library) p "int-flag" 0
       (<["country" := AString "DE"]> sample_context)
     = IntEvaluation (H := sample_library) p "int-flag" 0 sample_context
  /\ translateFeatureFlagPayload (delete "country" full_context) "int-flag"
     = translateFeatureFlagPayload full_context "int-flag".
Proof.
  intros p.
  assert (Hk : unread_key "country") by (repeat split; discriminate).
  split; [exact Hk|]. split.
  - destruct (unread_keys_are_ignored (H := sample_library) p "int-flag" "country"
                (AString "DE") sample_context Hk) as (_ & _ & _ & Hi & _).
    apply (Hi 0).
  - destruct (unread_keys_are_ignored (H := sample_library) p "int-flag" "country"
                ANil full_context Hk) as (_ & Hd & _).
    exact Hd.
Defined.

(** A table of flags that no call changes: the result is the same after
    seven evaluations as before the first. *)
Lemma evaluations_do_not_interfere_witness :
  let p := NewProvider (constant_client {[ "int-flag" := AString "42" ]}) in
  stateless (client p)
  /\ fst (IntEvaluation (H := sample_library) p "int-flag" 0 sample_context
            {| backend := 7%nat; calls := [] |})
     = fst (IntEvaluation (H := sample_library) p "int-flag" 0 sample_context
              fresh_world).
Proof.
  intros p.
  assert (Hst : stateless (client p))
    by (intros payload s1 s2; split; reflexivity).
  split; [exact Hst|].
  destruct (evaluations_do_not_interfere (H := sample_library) p "int-flag"
              sample_context Hst) as (_ & Hi & _).
  destruct (Hi 0) as [Hw _]. apply Hw.
Defined.

(** Without a targeting key the entry points agree, up to the code of
    [BooleanEvaluation]. *)
Lemma failures_before_coercion_agree_witness :
  let p := NewProvider (table_client ∅) in
  failed_before_coercion
    (verdict (fst (IntEvaluation (H := sample_library) p "flag" 0 ∅ fresh_world)))
  = true
  /\ verdict (fst (StringEvaluation (H := sample_library) p "flag" "" ∅ fresh_world))
     = verdict (fst (IntEvaluation (H := sample_library) p "flag" 0 ∅ fresh_world)).
Proof.
  intros p.
  assert (Hf : failed_before_coercion
                 (verdict (fst (IntEvaluation (H := sample_library) p "flag" 0 ∅
                                  fresh_world))) = true)
    by (vm_compute; reflexivity).
  split; [exact Hf|].
  destruct (failures_before_coercion_agree (H := sample_library) p fresh_world
              "flag" ∅ true 0 (S754_zero false) "" ANil Hf) as (_ & Hs & _).
  exact Hs.
Defined.

(** The smallest [int64], as the backend would send it. *)
Lemma formatted_integers_round_trip_witness :
  let p := NewProvider
             (table_client {[ "int-flag" := AString "-9223372036854775808" ]}) in
  int64_range (- 2 ^ 63)
  /\ strconv.FormatInt (- 2 ^ 63) = "-9223372036854775808"
  /\ IntEvaluation (H := sample_library) p "int-flag" 0 sample_context fresh_world
     = (Returned (detail (- 2 ^ 63) None "" TargetingMatchReason),
        after_call fresh_world (sample_payload "int-flag") 1%nat).
Proof.
  intros p.
  assert (Hn : int64_range (- 2 ^ 63)) by (unfold int64_range; lia).
  assert (Hctx : translateFeatureFlagPayload sample_context "int-flag"
                 = Returned (sample_payload "int-flag", None))
    by (vm_compute; reflexivity).
  assert (Hreply : GetFeatureFlag (client p) (sample_payload "int-flag")
                     (backend fresh_world)
                   = ((AString (strconv.FormatInt (- 2 ^ 63)), None), 1%nat))
    by (vm_compute; reflexivity).
  split; [exact Hn|]. split; [vm_compute; reflexivity|].
  apply (formatted_integers_round_trip (H := sample_library) p fresh_world
           "int-flag" sample_context _ _ _ Hn Hctx Hreply 0).
Defined.
